(** * local-prompt-manager: the database session and its save path

    A shallow embedding of [src/services/DatabaseService.ts],
    [src/services/StorageService.ts] and the save handler of the main
    component, with the properties the specification states about them.

    Modelling decisions.
    - The SQL engine (sql.js, i.e. SQLite) is a library, not code of the
      repository.  Every SQL statement the service issues is given its SQLite
      meaning on a typed image of the three tables of [initSchema]; a table is
      the list of its rows in insertion order, [sqlite_sequence] holds the
      AUTOINCREMENT counters.  Row identifiers are unbounded integers.
    - The byte image produced by [db.export()] and read by
      [new SQL.Database(data)] is the engine's own format: it is an interface
      ([SqlJs]) with two operations.  [Image] is an engine with a format of
      its own, for which re-opening an export is proved; a property stated
      for every engine takes what it needs of the engine as a hypothesis.
    - [datetime('now')] and [CURRENT_TIMESTAMP] are the engine's clock: every
      mutating operation takes the text the clock gives at that moment.
    - A JavaScript method is a computation over the object's fields that
      either returns or throws; the state survives a throw. *)

From Stdlib Require Import List String Ascii ZArith Bool Lia.
From Stdlib Require Import Strings.Byte.
From Stdlib Require Import Sorting.Sorted Sorting.Permutation.
Import ListNotations.

#[local] Open Scope string_scope.
#[local] Open Scope Z_scope.
#[local] Open Scope list_scope.

(** ** JavaScript control flow: return or throw, over a mutable state *)

Inductive exn : Type :=
| Error_DatabaseNotInitialized   (* new Error("Database not initialized") *)
| Error_SqlJsNotLoaded           (* new Error("SQL.js not loaded") *)
| TypeError_NullDereference      (* property read on null: this.db.exec with db = null *)
| Error_NotADatabase             (* the engine's error on a file that is no database *)
| Error_ForeignKeyConstraint     (* the engine with foreign keys enforced *)
| NotAllowedError                (* DOMException: write permission refused *)
| NotFoundError.                 (* DOMException: the file is gone *)

Inductive outcome (A : Type) : Type :=
| Return (a : A)
| Throw (e : exn).

Arguments Return {A} a.
Arguments Throw {A} e.

Definition M (S A : Type) : Type := S -> outcome A * S.

Definition ret {S A} (a : A) : M S A := fun s => (Return a, s).

Definition throw {S A} (e : exn) : M S A := fun s => (Throw e, s).

Definition bind {S A B} (m : M S A) (k : A -> M S B) : M S B :=
  fun s =>
    match m s with
    | (Return a, s') => k a s'
    | (Throw e, s') => (Throw e, s')
    end.

(** [try { body } catch (e) { handler e }] *)
Definition try_catch {S A} (body : M S A) (handler : exn -> M S A) : M S A :=
  fun s =>
    match body s with
    | (Return a, s') => (Return a, s')
    | (Throw e, s') => handler e s'
    end.

Declare Scope js_scope.
Delimit Scope js_scope with js.

Notation "x <- m ;; k" := (bind m (fun x => k))
  (at level 100, m at next level, right associativity) : js_scope.
Notation "m ;;; k" := (bind m (fun _ => k))
  (at level 100, right associativity) : js_scope.

(** ** [src/types.ts] *)

Module Project.
Record t : Type := mk {
  id : Z;
  name : string;
  description : option string;
  created_at : string;
  updated_at : string
}.
End Project.

Module Bot.
Record t : Type := mk {
  id : Z;
  project_id : Z;
  name : string;
  description : option string;
  created_at : string;
  updated_at : string
}.
End Bot.

Module Prompt.
Record t : Type := mk {
  id : Z;
  bot_id : Z;
  name : string;
  system_prompt : string;
  user_prompt : string;
  dev_prompt : string;
  params : string;
  created_at : string;
  updated_at : string
}.
End Prompt.

(** [Partial<Prompt>]: every field may be missing; [None] is [undefined]. *)
Module PartialPrompt.
Record t : Type := mk {
  id : option Z;
  bot_id : option Z;
  name : option string;
  system_prompt : option string;
  user_prompt : option string;
  dev_prompt : option string;
  params : option string;
  created_at : option string;
  updated_at : option string
}.

(** The object literal [{}]. *)
Definition empty : t := mk None None None None None None None None None.
End PartialPrompt.

(** ** The engine: the tables of [initSchema] and the statements run on them *)

Record Database : Type := mkDatabase {
  projects : list Project.t;
  bots : list Bot.t;
  prompts : list Prompt.t;
  seq_projects : Z;      (* sqlite_sequence, one counter per AUTOINCREMENT table *)
  seq_bots : Z;
  seq_prompts : Z
}.

(** SQLite enforces FOREIGN KEY clauses only on a connection that ran
    [PRAGMA foreign_keys = ON]; a new connection has it off.  The service
    opens connections with [new SQL.Database(...)] and never runs the pragma. *)
Definition SQLITE_DEFAULT_FOREIGN_KEYS : bool := false.

Module Sql.

(** Text order of the BINARY collation, the order [ORDER BY updated_at]
    uses on the text [datetime] produces. *)
Definition text_lt (a b : string) : bool := String.ltb a b.
Definition text_le (a b : string) : bool := String.leb a b.

(** [ORDER BY key DESC]: a stable sort, largest key first. *)
Fixpoint insert_desc {R} (key : R -> string) (x : R) (l : list R) : list R :=
  match l with
  | [] => [x]
  | y :: l' => if text_lt (key x) (key y) then y :: insert_desc key x l'
               else x :: y :: l'
  end.

Fixpoint order_by_desc {R} (key : R -> string) (l : list R) : list R :=
  match l with
  | [] => []
  | x :: l' => insert_desc key x (order_by_desc key l')
  end.

(** The rowid an AUTOINCREMENT table gives its next row: one more than the
    largest rowid in the table, and more than every rowid it ever gave. *)
Definition largest (ids : list Z) : option Z :=
  match ids with
  | [] => None
  | i :: rest => Some (fold_left Z.max rest i)
  end.

Definition next_rowid (ids : list Z) (seq : Z) : Z :=
  Z.max (match largest ids with Some m => m + 1 | None => 1 end) (seq + 1).

(** SELECT * FROM projects ORDER BY updated_at DESC *)
Definition select_projects (d : Database) : list Project.t :=
  order_by_desc Project.updated_at (projects d).

(** SELECT * FROM projects WHERE id = ? *)
Definition select_project_by_id (id : Z) (d : Database) : list Project.t :=
  filter (fun r => Project.id r =? id) (projects d).

(** SELECT * FROM bots WHERE project_id = ? ORDER BY updated_at DESC *)
Definition select_bots (projectId : Z) (d : Database) : list Bot.t :=
  order_by_desc Bot.updated_at
    (filter (fun r => Bot.project_id r =? projectId) (bots d)).

(** SELECT * FROM bots WHERE id = ? *)
Definition select_bot_by_id (id : Z) (d : Database) : list Bot.t :=
  filter (fun r => Bot.id r =? id) (bots d).

(** SELECT * FROM prompts WHERE bot_id = ? ORDER BY updated_at DESC *)
Definition select_prompts (botId : Z) (d : Database) : list Prompt.t :=
  order_by_desc Prompt.updated_at
    (filter (fun r => Prompt.bot_id r =? botId) (prompts d)).

(** SELECT * FROM prompts WHERE id = ? *)
Definition select_prompt_by_id (id : Z) (d : Database) : list Prompt.t :=
  filter (fun r => Prompt.id r =? id) (prompts d).

(** INSERT INTO projects (name, description, updated_at)
    VALUES (?, ?, datetime('now')); [created_at] takes its default,
    CURRENT_TIMESTAMP.  The result carries the rowid of the new row. *)
Definition insert_project (name description now : string) (d : Database)
  : Database * Z :=
  let rowid := next_rowid (map Project.id (projects d)) (seq_projects d) in
  (mkDatabase
     (projects d ++ [Project.mk rowid name (Some description) now now])
     (bots d) (prompts d) rowid (seq_bots d) (seq_prompts d),
   rowid).

(** INSERT INTO bots (project_id, name, description, updated_at)
    VALUES (?, ?, ?, datetime('now')).  With foreign keys enforced the
    statement fails unless the project exists. *)
Definition insert_bot (fk : bool) (projectId : Z) (name description now : string)
    (d : Database) : outcome (Database * Z) :=
  if fk && negb (existsb (fun p => Project.id p =? projectId) (projects d))
  then Throw Error_ForeignKeyConstraint
  else
    let rowid := next_rowid (map Bot.id (bots d)) (seq_bots d) in
    Return
      (mkDatabase (projects d)
         (bots d ++ [Bot.mk rowid projectId name (Some description) now now])
         (prompts d) (seq_projects d) rowid (seq_prompts d),
       rowid).

(** INSERT INTO prompts (bot_id, name, system_prompt, user_prompt,
    dev_prompt, params, updated_at) VALUES (?, ?, ?, ?, ?, ?, datetime('now')) *)
Definition insert_prompt (fk : bool) (botId : Z)
    (name system_prompt user_prompt dev_prompt params now : string)
    (d : Database) : outcome (Database * Z) :=
  if fk && negb (existsb (fun b => Bot.id b =? botId) (bots d))
  then Throw Error_ForeignKeyConstraint
  else
    let rowid := next_rowid (map Prompt.id (prompts d)) (seq_prompts d) in
    Return
      (mkDatabase (projects d) (bots d)
         (prompts d ++
            [Prompt.mk rowid botId name system_prompt user_prompt dev_prompt
               params now now])
         (seq_projects d) (seq_bots d) rowid,
       rowid).

(** UPDATE projects SET name = ?, description = ?,
    updated_at = datetime('now') WHERE id = ? *)
Definition update_project (id : Z) (name description now : string)
    (d : Database) : Database :=
  mkDatabase
    (map (fun r => if Project.id r =? id
                   then Project.mk (Project.id r) name (Some description)
                          (Project.created_at r) now
                   else r) (projects d))
    (bots d) (prompts d) (seq_projects d) (seq_bots d) (seq_prompts d).

(** UPDATE bots SET name = ?, description = ?,
    updated_at = datetime('now') WHERE id = ? *)
Definition update_bot (id : Z) (name description now : string)
    (d : Database) : Database :=
  mkDatabase (projects d)
    (map (fun r => if Bot.id r =? id
                   then Bot.mk (Bot.id r) (Bot.project_id r) name
                          (Some description) (Bot.created_at r) now
                   else r) (bots d))
    (prompts d) (seq_projects d) (seq_bots d) (seq_prompts d).

(** One item of the SET list [updatePrompt] builds. *)
Inductive assignment : Type :=
| set_name (v : string)             (* name = ? *)
| set_system_prompt (v : string)    (* system_prompt = ? *)
| set_user_prompt (v : string)      (* user_prompt = ? *)
| set_dev_prompt (v : string)       (* dev_prompt = ? *)
| set_params (v : string)           (* params = ? *)
| set_updated_at_now.               (* updated_at = datetime('now') *)

Definition assign (now : string) (r : Prompt.t) (a : assignment) : Prompt.t :=
  let '(Prompt.mk i b n sp up dp pa ca ua) := r in
  match a with
  | set_name v => Prompt.mk i b v sp up dp pa ca ua
  | set_system_prompt v => Prompt.mk i b n v up dp pa ca ua
  | set_user_prompt v => Prompt.mk i b n sp v dp pa ca ua
  | set_dev_prompt v => Prompt.mk i b n sp up v pa ca ua
  | set_params v => Prompt.mk i b n sp up dp v ca ua
  | set_updated_at_now => Prompt.mk i b n sp up dp pa ca now
  end.

(** UPDATE prompts SET <assignments> WHERE id = ? *)
Definition update_prompt (updates : list assignment) (id : Z) (now : string)
    (d : Database) : Database :=
  mkDatabase (projects d) (bots d)
    (map (fun r => if Prompt.id r =? id then fold_left (assign now) updates r
                   else r) (prompts d))
    (seq_projects d) (seq_bots d) (seq_prompts d).

(** DELETE FROM prompts WHERE id = ? *)
Definition delete_prompt (id : Z) (d : Database) : Database :=
  mkDatabase (projects d) (bots d)
    (filter (fun r => negb (Prompt.id r =? id)) (prompts d))
    (seq_projects d) (seq_bots d) (seq_prompts d).

(** DELETE FROM bots WHERE id = ?.  ON DELETE CASCADE removes the prompts of
    a deleted bot when foreign keys are enforced, and only then. *)
Definition delete_bot (fk : bool) (id : Z) (d : Database) : Database :=
  let gone := filter (fun r => Bot.id r =? id) (bots d) in
  mkDatabase (projects d)
    (filter (fun r => negb (Bot.id r =? id)) (bots d))
    (if fk
     then filter (fun r => negb (existsb (fun b => Bot.id b =? Prompt.bot_id r) gone))
            (prompts d)
     else prompts d)
    (seq_projects d) (seq_bots d) (seq_prompts d).

(** DELETE FROM projects WHERE id = ?.  ON DELETE CASCADE removes the bots of
    a deleted project, and through them their prompts, when foreign keys
    are enforced, and only then. *)
Definition delete_project (fk : bool) (id : Z) (d : Database) : Database :=
  let gone := filter (fun r => Project.id r =? id) (projects d) in
  let orphans :=
    filter (fun b => existsb (fun p => Project.id p =? Bot.project_id b) gone)
      (bots d) in
  mkDatabase
    (filter (fun r => negb (Project.id r =? id)) (projects d))
    (if fk
     then filter (fun b => negb (existsb (fun p => Project.id p =? Bot.project_id b) gone))
            (bots d)
     else bots d)
    (if fk
     then filter (fun r => negb (existsb (fun b => Bot.id b =? Prompt.bot_id r) orphans))
            (prompts d)
     else prompts d)
    (seq_projects d) (seq_bots d) (seq_prompts d).

(** [db.exec(sql)]: an array of result sets, one per statement that yields
    rows; a SELECT without rows yields none. *)
Definition exec {R} (rows : list R) : list (list R) :=
  match rows with
  | [] => []
  | _ :: _ => [rows]
  end.

End Sql.

(** ** sql.js: the byte image of a database

    [db.export()] serialises the database, [new SQL.Database(data)] opens one
    from bytes.  The constructor checks nothing and refuses nothing: what it
    makes of bytes that are not the image of a database with the three
    tables is the engine's, and no property here says what that is. *)

Class SqlJs : Type := {
  sqlite_export : Database -> list byte;
  sqlite_open : list byte -> Database
}.

(** ** The browser around the service *)

Module FileSystemFileHandle.
Record t : Type := mk {
  name : string;
  entry : nat            (* the file of the local file system it stands for *)
}.
End FileSystemFileHandle.

(** What [handle.createWritable()] meets when it asks for write access. *)
Inductive WriteAccess : Type :=
| write_granted
| write_refused      (* the permission request is refused *)
| entry_gone.        (* the file was moved or deleted *)

(** ** [DatabaseService] *)

Record DatabaseService : Type := mkDatabaseService {
  db : option Database;                          (* private db: any = null *)
  fileHandle : option FileSystemFileHandle.t     (* private fileHandle = null *)
}.

(** [new DatabaseService()] *)
Definition new_DatabaseService : DatabaseService := mkDatabaseService None None.

Record World : Type := mkWorld {
  dbService : DatabaseService;
  window_initSqlJs : bool;                       (* window.initSqlJs is defined *)
  access : nat -> WriteAccess;
  files : list (nat * list byte);                (* local files, newest write first *)
  indexedDB : option (option FileSystemFileHandle.t);
      (* window.indexedDB, and in it store 'handles', key 'db_handle' *)
  isSaving : bool;                               (* state of the Main component *)
  saveStatus : string;
  alerts : list exn;                             (* alert(...) shown to the user *)
  downloads : list (list byte)                   (* files handed to the user as downloads *)
}.

Definition set_dbService (s : DatabaseService) (w : World) : World :=
  mkWorld s (window_initSqlJs w) (access w) (files w) (indexedDB w)
    (isSaving w) (saveStatus w) (alerts w) (downloads w).

Definition set_files (f : list (nat * list byte)) (w : World) : World :=
  mkWorld (dbService w) (window_initSqlJs w) (access w) f (indexedDB w)
    (isSaving w) (saveStatus w) (alerts w) (downloads w).

Definition set_indexedDB (i : option (option FileSystemFileHandle.t)) (w : World) : World :=
  mkWorld (dbService w) (window_initSqlJs w) (access w) (files w) i
    (isSaving w) (saveStatus w) (alerts w) (downloads w).

Definition setIsSaving (b : bool) : M World unit :=
  fun w => (Return tt,
            mkWorld (dbService w) (window_initSqlJs w) (access w) (files w)
              (indexedDB w) b (saveStatus w) (alerts w) (downloads w)).

Definition setSaveStatus (t : string) : M World unit :=
  fun w => (Return tt,
            mkWorld (dbService w) (window_initSqlJs w) (access w) (files w)
              (indexedDB w) (isSaving w) t (alerts w) (downloads w)).

Definition alert (e : exn) : M World unit :=
  fun w => (Return tt,
            mkWorld (dbService w) (window_initSqlJs w) (access w) (files w)
              (indexedDB w) (isSaving w) (saveStatus w) (e :: alerts w) (downloads w)).

Definition download (data : list byte) : M World unit :=
  fun w => (Return tt,
            mkWorld (dbService w) (window_initSqlJs w) (access w) (files w)
              (indexedDB w) (isSaving w) (saveStatus w) (alerts w) (data :: downloads w)).

(** A synchronous method of [dbService] run in the world. *)
Definition on_dbService {A} (m : M DatabaseService A) : M World A :=
  fun w => let '(r, s) := m (dbService w) in (r, set_dbService s w).

(** [this.db.method(...)]: reading a property of [null] throws a TypeError. *)
Definition this_db {A} (k : Database -> M DatabaseService A) : M DatabaseService A :=
  fun s => match db s with
           | None => (Throw TypeError_NullDereference, s)
           | Some d => k d s
           end.

(** [this.db] after a statement that changed the database. *)
Definition set_db (d : Database) : M DatabaseService unit :=
  fun s => (Return tt, mkDatabaseService (Some d) (fileHandle s)).

(** [mapResults]: one object per row, a property per column. *)
Definition mapResults {R} (result : list R) : list R := map (fun row => row) result.

Section Service.
Context {engine : SqlJs}.
#[local] Open Scope js_scope.

(** [new SQL.Database()] followed by [initSchema()]: the three tables are
    created on an empty database, so each is there and has no row. *)
Definition initSchema : Database := mkDatabase [] [] [] 0 0 0.

Definition init (data : option (list byte)) : M World unit :=
  fun w =>
    if negb (window_initSqlJs w) then (Throw Error_SqlJsNotLoaded, w)
    else
      match data with
      | Some bytes =>
          (Return tt,
           set_dbService
             (mkDatabaseService (Some (sqlite_open bytes)) (fileHandle (dbService w))) w)
      | None =>
          (Return tt,
           set_dbService (mkDatabaseService (Some initSchema) (fileHandle (dbService w))) w)
      end.

Definition setFileHandle (handle : option FileSystemFileHandle.t) : M DatabaseService unit :=
  fun s => (Return tt, mkDatabaseService (db s) handle).

Definition hasFileHandle : M DatabaseService bool :=
  fun s => (Return (match fileHandle s with Some _ => true | None => false end), s).

Definition getFileName : M DatabaseService string :=
  fun s => (Return (match fileHandle s with
                    | Some h => FileSystemFileHandle.name h
                    | None => ""
                    end), s).

Definition export : M DatabaseService (list byte) :=
  fun s => match db s with
           | None => (Throw Error_DatabaseNotInitialized, s)
           | Some d => (Return (sqlite_export d), s)
           end.

(** [await this.fileHandle.createWritable()] *)
Definition createWritable (h : FileSystemFileHandle.t) : M World nat :=
  fun w => match access w (FileSystemFileHandle.entry h) with
           | write_granted => (Return (FileSystemFileHandle.entry h), w)
           | write_refused => (Throw NotAllowedError, w)
           | entry_gone => (Throw NotFoundError, w)
           end.

(** [await writable.write(data); await writable.close()] *)
Definition write_and_close (writable : nat) (data : list byte) : M World unit :=
  fun w => (Return tt, set_files ((writable, data) :: files w) w).

Definition saveToDisk : M World bool :=
  fun w =>
    match db (dbService w), fileHandle (dbService w) with
    | Some d, Some h =>
        try_catch
          (let data := sqlite_export d in
           writable <- createWritable h ;;
           write_and_close writable data ;;;
           ret true)
          (fun e => throw e)
          w
    | _, _ => (Return false, w)
    end.

(** *** Projects *)

Definition getProjects : M DatabaseService (list Project.t) :=
  this_db (fun d =>
    let res := Sql.exec (Sql.select_projects d) in
    match res with
    | [] => ret []
    | res0 :: _ => ret (mapResults res0)
    end).

Definition getProject (id : Z) : M DatabaseService (option Project.t) :=
  this_db (fun d =>
    let res := Sql.exec (Sql.select_project_by_id id d) in
    match res with
    | [] => ret None
    | res0 :: _ => ret (hd_error (mapResults res0))
    end).

Definition createProject (name description now : string) : M DatabaseService unit :=
  this_db (fun d => set_db (fst (Sql.insert_project name description now d))).

Definition updateProject (id : Z) (name description now : string)
  : M DatabaseService unit :=
  this_db (fun d => set_db (Sql.update_project id name description now d)).

Definition deleteProject (id : Z) : M DatabaseService unit :=
  this_db (fun d => set_db (Sql.delete_project SQLITE_DEFAULT_FOREIGN_KEYS id d)).

(** *** Bots *)

Definition getBots (projectId : Z) : M DatabaseService (list Bot.t) :=
  this_db (fun d =>
    let res := Sql.exec (Sql.select_bots projectId d) in
    match res with
    | [] => ret []
    | res0 :: _ => ret (mapResults res0)
    end).

Definition getBot (id : Z) : M DatabaseService (option Bot.t) :=
  this_db (fun d =>
    let res := Sql.exec (Sql.select_bot_by_id id d) in
    match res with
    | [] => ret None
    | res0 :: _ => ret (hd_error (mapResults res0))
    end).

Definition createBot (projectId : Z) (name description now : string)
  : M DatabaseService unit :=
  this_db (fun d =>
    match Sql.insert_bot SQLITE_DEFAULT_FOREIGN_KEYS projectId name description now d with
    | Return (d', _) => set_db d'
    | Throw e => throw e
    end).

Definition updateBot (id : Z) (name description now : string)
  : M DatabaseService unit :=
  this_db (fun d => set_db (Sql.update_bot id name description now d)).

Definition deleteBot (id : Z) : M DatabaseService unit :=
  this_db (fun d => set_db (Sql.delete_bot SQLITE_DEFAULT_FOREIGN_KEYS id d)).

(** *** Prompts *)

Definition getPrompts (botId : Z) : M DatabaseService (list Prompt.t) :=
  this_db (fun d =>
    let res := Sql.exec (Sql.select_prompts botId d) in
    match res with
    | [] => ret []
    | res0 :: _ => ret (mapResults res0)
    end).

Definition getPrompt (id : Z) : M DatabaseService (option Prompt.t) :=
  this_db (fun d =>
    let res := Sql.exec (Sql.select_prompt_by_id id d) in
    match res with
    | [] => ret None
    | res0 :: _ => ret (hd_error (mapResults res0))
    end).

Definition newline : string := String "010"%char EmptyString.
Definition quoted (s : string) : string :=
  String "034"%char (s ++ String "034"%char EmptyString)%string.

(** [JSON.stringify(object, null, 2)] for an object whose members are
    numbers; a number is given by the text JavaScript prints for it. *)
Definition JSON_stringify_indent2 (members : list (string * string)) : string :=
  match members with
  | [] => "{}"
  | _ :: _ =>
      ("{" ++ newline ++
       String.concat ("," ++ newline)
         (map (fun m => "  " ++ quoted (fst m) ++ ": " ++ snd m) members) ++
       newline ++ "}")%string
  end.

(** [JSON.stringify({ temperature: 0.7, maxOutputTokens: 1024 }, null, 2)] *)
Definition defaultParams : string :=
  JSON_stringify_indent2 [("temperature", "0.7"); ("maxOutputTokens", "1024")].

Definition createPrompt (botId : Z) (name now : string) : M DatabaseService Z :=
  this_db (fun d =>
    match Sql.insert_prompt SQLITE_DEFAULT_FOREIGN_KEYS botId name "" "" ""
            defaultParams now d with
    | Return (d', rowid) =>
        set_db d' ;;;
        (* SELECT last_insert_rowid(), read right after the INSERT *)
        ret rowid
    | Throw e => throw e
    end).

Definition updatePrompt (id : Z) (data : PartialPrompt.t) (now : string)
  : M DatabaseService unit :=
  let updates :=
    (match PartialPrompt.name data with Some v => [Sql.set_name v] | None => [] end) ++
    (match PartialPrompt.system_prompt data with
     | Some v => [Sql.set_system_prompt v] | None => [] end) ++
    (match PartialPrompt.user_prompt data with
     | Some v => [Sql.set_user_prompt v] | None => [] end) ++
    (match PartialPrompt.dev_prompt data with
     | Some v => [Sql.set_dev_prompt v] | None => [] end) ++
    (match PartialPrompt.params data with Some v => [Sql.set_params v] | None => [] end)
  in
  if (List.length updates =? 0)%nat then ret tt
  else
    this_db (fun d =>
      set_db (Sql.update_prompt (updates ++ [Sql.set_updated_at_now]) id now d)).

Definition deletePrompt (id : Z) : M DatabaseService unit :=
  this_db (fun d => set_db (Sql.delete_prompt id d)).

Definition duplicatePrompt (id : Z) (now : string) : M DatabaseService unit :=
  prompt <- getPrompt id ;;
  match prompt with
  | None => ret tt
  | Some p =>
      this_db (fun d =>
        match Sql.insert_prompt SQLITE_DEFAULT_FOREIGN_KEYS
                (Prompt.bot_id p) (Prompt.name p ++ " (Copy)")%string
                (Prompt.system_prompt p) (Prompt.user_prompt p)
                (Prompt.dev_prompt p) (Prompt.params p) now d with
        | Return (d', _) => set_db d'
        | Throw e => throw e
        end)
  end.

End Service.

(** ** [StorageService]: the remembered handle, in IndexedDB *)

Module StorageService.

Definition getHandle : M World (option FileSystemFileHandle.t) :=
  fun w => match indexedDB w with
           | None => (Return None, w)
           | Some slot => (Return slot, w)
           end.

Definition saveHandle (handle : FileSystemFileHandle.t) : M World unit :=
  fun w => match indexedDB w with
           | None => (Throw TypeError_NullDereference, w)
           | Some _ => (Return tt, set_indexedDB (Some (Some handle)) w)
           end.

Definition clearHandle : M World unit :=
  fun w => match indexedDB w with
           | None => (Throw TypeError_NullDereference, w)
           | Some _ => (Return tt, set_indexedDB (Some None) w)
           end.

End StorageService.

(** ** The save button of the main component *)

Section Main.
Context {engine : SqlJs}.
#[local] Open Scope js_scope.

(** [try { body } finally { final }] *)
Definition try_finally {S A} (body : M S A) (final : M S unit) : M S A :=
  fun s =>
    match body s with
    | (r, s') =>
        match final s' with
        | (Return _, s'') => (r, s'')
        | (Throw e, s'') => (Throw e, s'')
        end
    end.

(** The status line is cleared three seconds later by a timer, which is
    outside this model. *)
Definition handleSaveDb : M World unit :=
  setIsSaving true ;;;
  setSaveStatus "" ;;;
  try_finally
    (try_catch
       (success <- saveToDisk ;;
        if success : bool then setSaveStatus "Saved to disk!"
        else
          data <- on_dbService export ;;
          download data ;;;
          setSaveStatus "Downloaded")
       (fun e => alert e))
    (setIsSaving false).

End Main.

(** ** A reference image format

    A self-delimiting byte encoding of the three tables and the counters:
    an instance of [SqlJs] on which the service can be run, and which opens
    every image it exports as the database exported. *)

Module Image.

Definition parser (A : Type) : Type := list byte -> option (A * list byte).

Fixpoint put_nat (n : nat) : list byte :=
  match n with
  | O => [x00]
  | S n' => x01 :: put_nat n'
  end.

Fixpoint get_nat (bs : list byte) : option (nat * list byte) :=
  match bs with
  | x00 :: rest => Some (O, rest)
  | x01 :: rest =>
      match get_nat rest with
      | Some (n, rest') => Some (S n, rest')
      | None => None
      end
  | _ => None
  end.

Definition put_Z (z : Z) : list byte :=
  (if z <? 0 then x01 else x00) :: put_nat (Z.abs_nat z).

Definition get_Z : parser Z :=
  fun bs =>
    match bs with
    | sign :: rest =>
        match get_nat rest with
        | Some (n, rest') =>
            match sign with
            | x00 => Some (Z.of_nat n, rest')
            | x01 => Some (- Z.of_nat n, rest')
            | _ => None
            end
        | None => None
        end
    | [] => None
    end.

Fixpoint put_chars (s : string) : list byte :=
  match s with
  | EmptyString => []
  | String c s' => byte_of_ascii c :: put_chars s'
  end.

Definition put_string (s : string) : list byte :=
  put_nat (String.length s) ++ put_chars s.

Fixpoint get_chars (n : nat) (bs : list byte) : option (string * list byte) :=
  match n with
  | O => Some (EmptyString, bs)
  | S n' =>
      match bs with
      | b :: rest =>
          match get_chars n' rest with
          | Some (s, rest') => Some (String (ascii_of_byte b) s, rest')
          | None => None
          end
      | [] => None
      end
  end.

Definition get_string : parser string :=
  fun bs =>
    match get_nat bs with
    | Some (n, rest) => get_chars n rest
    | None => None
    end.

Definition put_option_string (o : option string) : list byte :=
  match o with
  | None => [x00]
  | Some s => x01 :: put_string s
  end.

Definition get_option_string : parser (option string) :=
  fun bs =>
    match bs with
    | x00 :: rest => Some (None, rest)
    | x01 :: rest =>
        match get_string rest with
        | Some (s, rest') => Some (Some s, rest')
        | None => None
        end
    | _ => None
    end.

Definition then_ {A B} (p : parser A) (k : A -> parser B) : parser B :=
  fun bs =>
    match p bs with
    | Some (a, rest) => k a rest
    | None => None
    end.

Definition done {A} (a : A) : parser A := fun bs => Some (a, bs).

Fixpoint get_rows {A} (p : parser A) (n : nat) : parser (list A) :=
  match n with
  | O => done []
  | S n' => then_ p (fun a => then_ (get_rows p n') (fun l => done (a :: l)))
  end.

Definition put_table {A} (put : A -> list byte) (rows : list A) : list byte :=
  put_nat (List.length rows) ++ flat_map put rows.

Definition get_table {A} (p : parser A) : parser (list A) :=
  then_ get_nat (get_rows p).

Definition put_project (r : Project.t) : list byte :=
  put_Z (Project.id r) ++ put_string (Project.name r) ++
  put_option_string (Project.description r) ++
  put_string (Project.created_at r) ++ put_string (Project.updated_at r).

Definition get_project : parser Project.t :=
  then_ get_Z (fun i => then_ get_string (fun n =>
  then_ get_option_string (fun d => then_ get_string (fun c =>
  then_ get_string (fun u => done (Project.mk i n d c u)))))).

Definition put_bot (r : Bot.t) : list byte :=
  put_Z (Bot.id r) ++ put_Z (Bot.project_id r) ++ put_string (Bot.name r) ++
  put_option_string (Bot.description r) ++
  put_string (Bot.created_at r) ++ put_string (Bot.updated_at r).

Definition get_bot : parser Bot.t :=
  then_ get_Z (fun i => then_ get_Z (fun p => then_ get_string (fun n =>
  then_ get_option_string (fun d => then_ get_string (fun c =>
  then_ get_string (fun u => done (Bot.mk i p n d c u))))))).

Definition put_prompt (r : Prompt.t) : list byte :=
  put_Z (Prompt.id r) ++ put_Z (Prompt.bot_id r) ++ put_string (Prompt.name r) ++
  put_string (Prompt.system_prompt r) ++ put_string (Prompt.user_prompt r) ++
  put_string (Prompt.dev_prompt r) ++ put_string (Prompt.params r) ++
  put_string (Prompt.created_at r) ++ put_string (Prompt.updated_at r).

Definition get_prompt : parser Prompt.t :=
  then_ get_Z (fun i => then_ get_Z (fun b => then_ get_string (fun n =>
  then_ get_string (fun sp => then_ get_string (fun up =>
  then_ get_string (fun dp => then_ get_string (fun pa =>
  then_ get_string (fun c => then_ get_string (fun u =>
    done (Prompt.mk i b n sp up dp pa c u)))))))))).

Definition to_bytes (d : Database) : list byte :=
  put_table put_project (projects d) ++ put_table put_bot (bots d) ++
  put_table put_prompt (prompts d) ++
  put_Z (seq_projects d) ++ put_Z (seq_bots d) ++ put_Z (seq_prompts d).

Definition of_bytes (bs : list byte) : option Database :=
  match
    then_ (get_table get_project) (fun ps =>
    then_ (get_table get_bot) (fun bs' =>
    then_ (get_table get_prompt) (fun qs =>
    then_ get_Z (fun s1 => then_ get_Z (fun s2 => then_ get_Z (fun s3 =>
      done (mkDatabase ps bs' qs s1 s2 s3))))))) bs
  with
  | Some (d, []) => Some d
  | _ => None
  end.

(** Opening never fails: bytes that are no image open as a database without
    rows. *)
Definition open (bs : list byte) : Database :=
  match of_bytes bs with
  | Some d => d
  | None => mkDatabase [] [] [] 0 0 0
  end.

Definition sqljs : SqlJs := Build_SqlJs to_bytes open.

End Image.

(** ** Sample states *)

Module Sample.

Definition t0 : string := "2024-05-01 10:00:00".
Definition t1 : string := "2024-05-01 10:00:05".
Definition t2 : string := "2024-05-01 10:00:09".

(** A browser with sql.js loaded, IndexedDB present and nothing else. *)
Definition browser (s : DatabaseService) : World :=
  mkWorld s true (fun _ => write_granted) [] (Some None) false "" [] [].

(** The session after [init()] on a new service. *)
Definition fresh : DatabaseService := mkDatabaseService (Some initSchema) None.

(** One project, one bot in it, one prompt of that bot. *)
Definition populated : Database :=
  mkDatabase
    [Project.mk 1 "P1" (Some "") t0 t0]
    [Bot.mk 1 1 "B1" (Some "") t1 t1]
    [Prompt.mk 1 1 "New Prompt" "" "" "" defaultParams t2 t2]
    1 1 1.

Definition prompts_db : Database :=
  mkDatabase
    [Project.mk 1 "P1" (Some "") t0 t0]
    [Bot.mk 1 1 "B1" (Some "") t0 t0]
    [Prompt.mk 1 1 "alpha" "sys" "usr" "dev" "{}" t0 t0;
     Prompt.mk 2 1 "beta" "s2" "u2" "d2" "{}" t0 t1]
    1 1 2.

Definition handle : FileSystemFileHandle.t :=
  FileSystemFileHandle.mk "prompts.sqlite" 7.

(** A session bound to a file whose write permission is refused; the handle
    is also the remembered one. *)
Definition refused : World :=
  mkWorld (mkDatabaseService (Some populated) (Some handle)) true
    (fun _ => write_refused) [] (Some (Some handle)) false "" [] [].

End Sample.

(** ** Vocabulary of the properties *)

(** A listing is ordered by [updated_at] descending: every row is at least as
    recent as every row after it. *)
Definition recents_first {R} (key : R -> string) (l : list R) : Prop :=
  StronglySorted (fun a b => Sql.text_le (key b) (key a) = true) l.

(** Some updatable field is present in a [Partial<Prompt>]. *)
Definition has_updatable_field (f : PartialPrompt.t) : bool :=
  match PartialPrompt.name f, PartialPrompt.system_prompt f,
        PartialPrompt.user_prompt f, PartialPrompt.dev_prompt f,
        PartialPrompt.params f with
  | None, None, None, None, None => false
  | _, _, _, _, _ => true
  end.

Definition or_else {A} (o : option A) (a : A) : A :=
  match o with Some v => v | None => a end.

(** The partial-update contract, column by column: a present updatable field
    replaces the column, [updated_at] is stamped, the rest is kept. *)
Definition patched (f : PartialPrompt.t) (now : string) (r : Prompt.t) : Prompt.t :=
  Prompt.mk (Prompt.id r) (Prompt.bot_id r)
    (or_else (PartialPrompt.name f) (Prompt.name r))
    (or_else (PartialPrompt.system_prompt f) (Prompt.system_prompt r))
    (or_else (PartialPrompt.user_prompt f) (Prompt.user_prompt r))
    (or_else (PartialPrompt.dev_prompt f) (Prompt.dev_prompt r))
    (or_else (PartialPrompt.params f) (Prompt.params r))
    (Prompt.created_at r) now.

(** An initialised session: the engine holds [d]. *)
Definition session (d : Database) (h : option FileSystemFileHandle.t) : DatabaseService :=
  mkDatabaseService (Some d) h.

(** ** The prompt editor of the main component *)

Module PromptEditor.

(** The state of the component: the prompt it loaded and the form fields. *)
Record t : Type := mk {
  prompt : option Prompt.t;
  dirty : bool;
  name : string;
  systemPrompt : string;
  devPrompt : string;       (* mapped to user_prompt in the database *)
  notes : string;           (* mapped to dev_prompt in the database *)
  params : string
}.

(** The [useState] initial values. *)
Definition initial : t := mk None false "" "" "" "" "".

(** [s || fallback] on strings: the empty string is falsy. *)
Definition or_default (s fallback : string) : string :=
  if (s =? "")%string then fallback else s.

(** The effect that runs when the editor is shown for prompt [id]. *)
Definition load (id : Z) : M (DatabaseService * t) unit :=
  fun st =>
    let '(s, e) := st in
    match getPrompt id s with
    | (Return (Some p), s') =>
        (Return tt,
         (s', mk (Some p) (dirty e) (Prompt.name p)
                (or_default (Prompt.system_prompt p) "")
                (or_default (Prompt.user_prompt p) "")
                (or_default (Prompt.dev_prompt p) "")
                (or_default (Prompt.params p) "{}")))
    | (Return None, s') => (Return tt, (s', e))
    | (Throw x, s') => (Throw x, (s', e))
    end.

Definition handleSave (id : Z) (now : string) : M (DatabaseService * t) unit :=
  fun st =>
    let '(s, e) := st in
    match prompt e with
    | None => (Return tt, st)
    | Some _ =>
        match updatePrompt id
                (PartialPrompt.mk None None (Some (name e)) (Some (systemPrompt e))
                   (Some (devPrompt e)) (Some (notes e)) (Some (params e)) None None)
                now s with
        | (Return _, s') =>
            (Return tt,
             (s', mk (prompt e) false (name e) (systemPrompt e) (devPrompt e)
                    (notes e) (params e)))
        | (Throw x, s') => (Throw x, (s', e))
        end
    end.

(** The form fields, that is the setters [handleChange] is called with. *)
Inductive field : Type :=
| field_name | field_systemPrompt | field_devPrompt | field_notes | field_params.

Definition same_field (a b : field) : bool :=
  match a, b with
  | field_name, field_name | field_systemPrompt, field_systemPrompt
  | field_devPrompt, field_devPrompt | field_notes, field_notes
  | field_params, field_params => true
  | _, _ => false
  end.

(** [handleChange(setter, val)]: sets the field and marks the form dirty. *)
Definition handleChange (f : field) (val : string) : M (DatabaseService * t) unit :=
  fun st =>
    let '(s, e) := st in
    (Return tt,
     (s, match f with
         | field_name =>
             mk (prompt e) true val (systemPrompt e) (devPrompt e) (notes e) (params e)
         | field_systemPrompt =>
             mk (prompt e) true (name e) val (devPrompt e) (notes e) (params e)
         | field_devPrompt =>
             mk (prompt e) true (name e) (systemPrompt e) val (notes e) (params e)
         | field_notes =>
             mk (prompt e) true (name e) (systemPrompt e) (devPrompt e) val (params e)
         | field_params =>
             mk (prompt e) true (name e) (systemPrompt e) (devPrompt e) (notes e) val
         end)).

(** The user's edits, in the order they are typed. *)
Fixpoint edits (l : list (field * string)) : M (DatabaseService * t) unit :=
  match l with
  | [] => ret tt
  | (f, val) :: rest => bind (handleChange f val) (fun _ => edits rest)
  end.

(** What a field shows after the edits: the last value typed into it, or
    what it showed before when it was not edited. *)
Fixpoint last_edit (f : field) (l : list (field * string)) (shown : string) : string :=
  match l with
  | [] => shown
  | (g, val) :: rest => last_edit f rest (if same_field g f then val else shown)
  end.

Definition handleDelete (id : Z) : M (DatabaseService * t) unit :=
  fun st =>
    let '(s, e) := st in
    match prompt e with
    | None => (Return tt, st)
    | Some _ =>
        match deletePrompt id s with
        | (r, s') => (r, (s', e))
        end
    end.

End PromptEditor.

(** ** The loader component (the revision that uses file handles) *)

Module Loader.

Record t : Type := mk {
  error : option string;                            (* useState<string | null>(null) *)
  loading : bool;
  savedHandle : option FileSystemFileHandle.t;
  loaded : bool                                     (* onLoaded() was called *)
}.

Definition initial : t := mk None false None false.

Record Page : Type := mkPage {
  world : World;
  view : t
}.

(** The answer of [queryPermission] and of [requestPermission]. *)
Inductive PermissionState : Type := granted | denied | prompt.

Definition is_granted (p : PermissionState) : bool :=
  match p with granted => true | _ => false end.

(** What a file picker comes back with: a handle, the user's cancellation
    (a DOMException named AbortError), or another failure. *)
Inductive pick : Type :=
| chosen (handle : FileSystemFileHandle.t)
| aborted
| picker_failed (e : exn).

(** What [handleLoadSaved] may catch. *)
Inductive thrown : Type :=
| Error_PermissionDenied      (* new Error("Permission denied") *)
| Raised (e : exn).

(** [hay.includes(needle)] *)
Fixpoint includes (needle hay : string) : bool :=
  if String.prefix needle hay then true
  else match hay with
       | EmptyString => false
       | String _ rest => includes needle rest
       end.

Definition in_world {A} (m : M World A) : M Page A :=
  fun p => let '(r, w) := m (world p) in (r, mkPage w (view p)).

Definition setLoading (b : bool) : M Page unit :=
  fun p => (Return tt,
            mkPage (world p)
              (mk (error (view p)) b (savedHandle (view p)) (loaded (view p)))).

Definition setError (text : string) : M Page unit :=
  fun p => (Return tt,
            mkPage (world p)
              (mk (Some text) (loading (view p)) (savedHandle (view p))
                 (loaded (view p)))).

Definition setSavedHandle (h : option FileSystemFileHandle.t) : M Page unit :=
  fun p => (Return tt,
            mkPage (world p)
              (mk (error (view p)) (loading (view p)) h (loaded (view p)))).

Definition onLoaded : M Page unit :=
  fun p => (Return tt,
            mkPage (world p)
              (mk (error (view p)) (loading (view p)) (savedHandle (view p)) true)).

(** [await handle.getFile()] and the bytes of the file: the newest content
    written to the entry, if the entry is still there. *)
Definition getFile (h : FileSystemFileHandle.t) : M World (list byte) :=
  fun w =>
    match access w (FileSystemFileHandle.entry h) with
    | entry_gone => (Throw NotFoundError, w)
    | _ =>
        match find (fun f => Nat.eqb (fst f) (FileSystemFileHandle.entry h)) (files w) with
        | Some (_, bytes) => (Return bytes, w)
        | None => (Throw NotFoundError, w)
        end
    end.

Section Handlers.
Context {engine : SqlJs}.
(** The message text of an exception the browser or the engine raised. *)
Variable message_of : exn -> string.
#[local] Open Scope js_scope.

(** [e.message] *)
Definition message (e : thrown) : string :=
  match e with
  | Error_PermissionDenied => "Permission denied"
  | Raised Error_SqlJsNotLoaded => "SQL.js not loaded"
  | Raised Error_DatabaseNotInitialized => "Database not initialized"
  | Raised x => message_of x
  end.

(** The effect on mount: look for a remembered handle. *)
Definition mount : M Page unit :=
  handle <- in_world StorageService.getHandle ;;
  match handle with
  | Some h => setSavedHandle (Some h)
  | None => ret tt
  end.

Definition handleNew : M Page unit :=
  setLoading true ;;;
  try_catch
    (in_world (init None) ;;;
     in_world (on_dbService (setFileHandle None)) ;;;
     in_world StorageService.clearHandle ;;;
     onLoaded)
    (fun _ =>
       setError "Failed to initialize database engine." ;;;
       setLoading false).

Definition handleCreateAtLocation (picked : pick) : M Page unit :=
  setLoading true ;;;
  match picked with
  | aborted => setLoading false
  | picker_failed e =>
      setError ("Failed to create file: " ++ message (Raised e))%string ;;;
      setLoading false
  | chosen handle =>
      try_catch
        (in_world (init None) ;;;
         in_world (on_dbService (setFileHandle (Some handle))) ;;;
         in_world saveToDisk ;;;
         in_world (StorageService.saveHandle handle) ;;;
         onLoaded)
        (fun e =>
           setError ("Failed to create file: " ++ message (Raised e))%string ;;;
           setLoading false)
  end.

Definition handleOpenLocation (picked : pick) : M Page unit :=
  setLoading true ;;;
  match picked with
  | aborted => setLoading false
  | picker_failed e =>
      setError ("Failed to open file: " ++ message (Raised e))%string ;;;
      setLoading false
  | chosen handle =>
      try_catch
        (u8 <- in_world (getFile handle) ;;
         in_world (init (Some u8)) ;;;
         in_world (on_dbService (setFileHandle (Some handle))) ;;;
         in_world (StorageService.saveHandle handle) ;;;
         onLoaded)
        (fun e =>
           setError ("Failed to open file: " ++ message (Raised e))%string ;;;
           setLoading false)
  end.

(** The catch block of [handleLoadSaved].  [StorageService.clearHandle()] is
    started and not awaited: whether it fails is not looked at. *)
Definition handleLoadSaved_catch (e : thrown) : M Page unit :=
  setError
    ("Failed to load saved file. It may have been moved or deleted. " ++ message e)%string ;;;
  (if includes "found" (message e) || includes "denied" (message e)
   then
     setSavedHandle None ;;;
     try_catch (in_world StorageService.clearHandle) (fun _ => ret tt)
   else ret tt) ;;;
  setLoading false.

(** [query] and [request] are what the browser answers to
    [queryPermission] and, when that is not 'granted', to
    [requestPermission]. *)
Definition handleLoadSaved (query request : PermissionState) : M Page unit :=
  fun p =>
    match savedHandle (view p) with
    | None => (Return tt, p)
    | Some h =>
        (setLoading true ;;;
         if negb (is_granted query) && negb (is_granted request)
         then handleLoadSaved_catch Error_PermissionDenied
         else
           try_catch
             (u8 <- in_world (getFile h) ;;
              in_world (init (Some u8)) ;;;
              in_world (on_dbService (setFileHandle (Some h))) ;;;
              onLoaded)
             (fun e => handleLoadSaved_catch (Raised e))) p
    end.

(** [loadFile(file)] once the reader has the [content] of the file. *)
Definition loadFile (content : list byte) : M Page unit :=
  setLoading true ;;;
  try_catch
    (in_world (init (Some content)) ;;;
     in_world (on_dbService (setFileHandle None)) ;;;
     in_world StorageService.clearHandle ;;;
     onLoaded)
    (fun _ =>
       setError "Invalid SQLite file provided." ;;;
       setLoading false).

End Handlers.

End Loader.

(** Reloading the page: the service and the components start anew, the
    files and IndexedDB are what the browser kept. *)
Definition reload (w : World) : Loader.Page :=
  Loader.mkPage
    (mkWorld new_DatabaseService (window_initSqlJs w) (access w) (files w)
       (indexedDB w) false "" [] [])
    Loader.initial.

(** ** Sequences of calls on the service *)

(** A mutating call of the service, with its arguments and the reading of the
    engine's clock when it runs. *)
Inductive operation : Type :=
| call_createProject (name description now : string)
| call_updateProject (id : Z) (name description now : string)
| call_deleteProject (id : Z)
| call_createBot (projectId : Z) (name description now : string)
| call_updateBot (id : Z) (name description now : string)
| call_deleteBot (id : Z)
| call_createPrompt (botId : Z) (name now : string)
| call_updatePrompt (id : Z) (data : PartialPrompt.t) (now : string)
| call_deletePrompt (id : Z)
| call_duplicatePrompt (id : Z) (now : string).

Definition call (o : operation) : M DatabaseService unit :=
  match o with
  | call_createProject name description now => createProject name description now
  | call_updateProject id name description now => updateProject id name description now
  | call_deleteProject id => deleteProject id
  | call_createBot projectId name description now =>
      createBot projectId name description now
  | call_updateBot id name description now => updateBot id name description now
  | call_deleteBot id => deleteBot id
  | call_createPrompt botId name now => bind (createPrompt botId name now) (fun _ => ret tt)
  | call_updatePrompt id data now => updatePrompt id data now
  | call_deletePrompt id => deletePrompt id
  | call_duplicatePrompt id now => duplicatePrompt id now
  end.

Fixpoint calls (ops : list operation) : M DatabaseService unit :=
  match ops with
  | [] => ret tt
  | o :: rest => bind (call o) (fun _ => calls rest)
  end.

(** PRIMARY KEY: no two rows of a table have the same id. *)
Definition keys_unique (d : Database) : Prop :=
  NoDup (map Project.id (projects d))
  /\ NoDup (map Bot.id (bots d))
  /\ NoDup (map Prompt.id (prompts d)).

(** Every id in use is one AUTOINCREMENT has handed out. *)
Definition keys_within_sequence (d : Database) : Prop :=
  (forall r, In r (projects d) -> Project.id r <= seq_projects d)
  /\ (forall r, In r (bots d) -> Bot.id r <= seq_bots d)
  /\ (forall r, In r (prompts d) -> Prompt.id r <= seq_prompts d).

(** ** States the later properties are run on *)

Module Scenario.

(** A page whose service holds the populated database, bound to the sample
    file, with write access granted and IndexedDB empty. *)
Definition bound : World :=
  Sample.browser (mkDatabaseService (Some Sample.populated) (Some Sample.handle)).

(** The same database, not bound to any file. *)
Definition unbound : World :=
  Sample.browser (mkDatabaseService (Some Sample.populated) None).

(** A page that has just been opened: nothing initialised, and the sample
    handle remembered from an earlier visit. *)
Definition returning : Loader.Page :=
  Loader.mkPage
    (mkWorld new_DatabaseService true (fun _ => write_granted)
       [(7%nat, Image.to_bytes Sample.populated)] (Some (Some Sample.handle))
       false "" [] [])
    (Loader.mk None false (Some Sample.handle) false).

(** A page that has just been opened in a browser that remembers nothing. *)
Definition first_visit : Loader.Page :=
  Loader.mkPage (Sample.browser new_DatabaseService) Loader.initial.

Definition message_of (e : exn) : string :=
  match e with
  | NotFoundError =>
      "A requested file or directory could not be found at the time an operation was processed."
  | NotAllowedError => "The request is not allowed by the user agent."
  | Error_NotADatabase => "file is not a database"
  | _ => "error"
  end.

End Scenario.

(** ** The text order *)

Lemma string_compare_trans (a : string) :
  forall b c, String.compare a b <> Gt -> String.compare b c <> Gt ->
              String.compare a c <> Gt.
Proof.
  induction a as [|x a IH]; intros [|y b] [|z c]; simpl; try congruence.
  unfold Ascii.compare.
  destruct (N.compare_spec (N_of_ascii x) (N_of_ascii y)) as [Hxy|Hxy|Hxy];
    destruct (N.compare_spec (N_of_ascii y) (N_of_ascii z)) as [Hyz|Hyz|Hyz];
    destruct (N.compare_spec (N_of_ascii x) (N_of_ascii z)) as [Hxz|Hxz|Hxz];
    try congruence; try lia.
  apply IH.
Qed.

Lemma text_le_trans (a b c : string) :
  Sql.text_le a b = true -> Sql.text_le b c = true -> Sql.text_le a c = true.
Proof.
  unfold Sql.text_le, String.leb. intros Hab Hbc.
  pose proof (string_compare_trans a b c) as T.
  destruct (String.compare a b); destruct (String.compare b c);
    destruct (String.compare a c); try reflexivity; try discriminate;
    exfalso; apply T; congruence.
Qed.

Lemma text_lt_le (a b : string) : Sql.text_lt a b = true -> Sql.text_le a b = true.
Proof.
  unfold Sql.text_lt, Sql.text_le, String.ltb, String.leb.
  destruct (String.compare a b); congruence.
Qed.

Lemma text_not_lt_ge (a b : string) : Sql.text_lt a b = false -> Sql.text_le b a = true.
Proof.
  unfold Sql.text_lt, Sql.text_le, String.ltb, String.leb.
  rewrite (String.compare_antisym b a).
  destruct (String.compare a b); simpl; congruence.
Qed.

(** ** ORDER BY ... DESC sorts and keeps the rows *)

Section OrderBy.
Context {R : Type} (key : R -> string).

Lemma insert_desc_perm (x : R) (l : list R) :
  Permutation (Sql.insert_desc key x l) (x :: l).
Proof.
  induction l as [|y l IH]; simpl; [reflexivity|].
  destruct (Sql.text_lt (key x) (key y)); [|reflexivity].
  rewrite IH. apply perm_swap.
Qed.

Lemma order_by_desc_perm (l : list R) : Permutation (Sql.order_by_desc key l) l.
Proof.
  induction l as [|x l IH]; simpl; [constructor|].
  rewrite insert_desc_perm. now constructor.
Qed.

Lemma insert_desc_sorted (x : R) (l : list R) :
  recents_first key l -> recents_first key (Sql.insert_desc key x l).
Proof.
  unfold recents_first.
  induction l as [|y l IH]; simpl; intros Hs.
  - repeat constructor.
  - apply StronglySorted_inv in Hs. destruct Hs as [Hs Hy].
    destruct (Sql.text_lt (key x) (key y)) eqn:E.
    + constructor; [now apply IH|].
      eapply Permutation_Forall.
      * symmetry. apply insert_desc_perm.
      * constructor; [now apply text_lt_le | exact Hy].
    + apply text_not_lt_ge in E.
      constructor; [now constructor|].
      constructor; [exact E|].
      eapply Forall_impl; [|exact Hy].
      intros z Hz. simpl in Hz. eapply text_le_trans; eassumption.
Qed.

Lemma order_by_desc_sorted (l : list R) : recents_first key (Sql.order_by_desc key l).
Proof.
  induction l as [|x l IH]; simpl.
  - constructor.
  - now apply insert_desc_sorted.
Qed.

Lemma order_by_desc_In (x : R) (l : list R) : In x (Sql.order_by_desc key l) <-> In x l.
Proof.
  split; apply Permutation_in;
    [apply order_by_desc_perm | symmetry; apply order_by_desc_perm].
Qed.

End OrderBy.

(** ** AUTOINCREMENT gives a rowid no row of the table has *)

Lemma fold_left_max_bounds (l : list Z) :
  forall i, i <= fold_left Z.max l i /\ forall x, In x l -> x <= fold_left Z.max l i.
Proof.
  induction l as [|y l IH]; intros i; simpl.
  - split; [lia | tauto].
  - destruct (IH (Z.max i y)) as [H1 H2]. split; [lia|].
    intros x [<-|Hx]; [lia | now apply H2].
Qed.

Lemma next_rowid_fresh (ids : list Z) (seq : Z) :
  forall x, In x ids -> x < Sql.next_rowid ids seq.
Proof.
  unfold Sql.next_rowid, Sql.largest. intros x Hx.
  destruct ids as [|i rest]; [contradiction|].
  destruct (fold_left_max_bounds rest i) as [H1 H2].
  destruct Hx as [<-|Hx]; [lia|]. specialize (H2 _ Hx). lia.
Qed.

Lemma next_rowid_not_in (ids : list Z) (seq : Z) : ~ In (Sql.next_rowid ids seq) ids.
Proof.
  intros H. apply (next_rowid_fresh ids seq) in H. lia.
Qed.

Lemma next_rowid_above_sequence (ids : list Z) (seq : Z) : seq < Sql.next_rowid ids seq.
Proof. unfold Sql.next_rowid. lia. Qed.

(** ** What each method does on an initialised session *)

(** Runs a getter: unfolds it on the session and looks at the rows selected. *)
Ltac run_select getter rows :=
  unfold getter, this_db, session; simpl;
  destruct rows; simpl; unfold ret, mapResults; rewrite ?map_id; reflexivity.

Section Methods.
Variables (d : Database) (h : option FileSystemFileHandle.t).

Lemma getProjects_eq :
  getProjects (session d h) = (Return (Sql.select_projects d), session d h).
Proof. run_select getProjects (Sql.select_projects d). Qed.

Lemma getBots_eq (projectId : Z) :
  getBots projectId (session d h) = (Return (Sql.select_bots projectId d), session d h).
Proof. run_select getBots (Sql.select_bots projectId d). Qed.

Lemma getPrompts_eq (botId : Z) :
  getPrompts botId (session d h) = (Return (Sql.select_prompts botId d), session d h).
Proof. run_select getPrompts (Sql.select_prompts botId d). Qed.

Lemma getProject_eq (id : Z) :
  getProject id (session d h)
  = (Return (hd_error (Sql.select_project_by_id id d)), session d h).
Proof. run_select getProject (Sql.select_project_by_id id d). Qed.

Lemma getBot_eq (id : Z) :
  getBot id (session d h) = (Return (hd_error (Sql.select_bot_by_id id d)), session d h).
Proof. run_select getBot (Sql.select_bot_by_id id d). Qed.

Lemma getPrompt_eq (id : Z) :
  getPrompt id (session d h)
  = (Return (hd_error (Sql.select_prompt_by_id id d)), session d h).
Proof. run_select getPrompt (Sql.select_prompt_by_id id d). Qed.

Lemma createProject_eq (name description now : string) :
  createProject name description now (session d h)
  = (Return tt, session (fst (Sql.insert_project name description now d)) h).
Proof. reflexivity. Qed.

Lemma createBot_eq (projectId : Z) (name description now : string) :
  createBot projectId name description now (session d h)
  = (Return tt,
     session
       (mkDatabase (projects d)
          (bots d ++
             [Bot.mk (Sql.next_rowid (map Bot.id (bots d)) (seq_bots d)) projectId
                name (Some description) now now])
          (prompts d) (seq_projects d)
          (Sql.next_rowid (map Bot.id (bots d)) (seq_bots d)) (seq_prompts d)) h).
Proof. reflexivity. Qed.

Lemma createPrompt_eq (botId : Z) (name now : string) :
  createPrompt botId name now (session d h)
  = (Return (Sql.next_rowid (map Prompt.id (prompts d)) (seq_prompts d)),
     session
       (mkDatabase (projects d) (bots d)
          (prompts d ++
             [Prompt.mk (Sql.next_rowid (map Prompt.id (prompts d)) (seq_prompts d))
                botId name "" "" "" defaultParams now now])
          (seq_projects d) (seq_bots d)
          (Sql.next_rowid (map Prompt.id (prompts d)) (seq_prompts d))) h).
Proof. reflexivity. Qed.

Lemma deleteProject_eq (id : Z) :
  deleteProject id (session d h)
  = (Return tt,
     session
       (mkDatabase (filter (fun r => negb (Project.id r =? id)) (projects d))
          (bots d) (prompts d) (seq_projects d) (seq_bots d) (seq_prompts d)) h).
Proof. reflexivity. Qed.

Lemma deleteBot_eq (id : Z) :
  deleteBot id (session d h)
  = (Return tt,
     session
       (mkDatabase (projects d) (filter (fun r => negb (Bot.id r =? id)) (bots d))
          (prompts d) (seq_projects d) (seq_bots d) (seq_prompts d)) h).
Proof. reflexivity. Qed.

Lemma deletePrompt_eq (id : Z) :
  deletePrompt id (session d h) = (Return tt, session (Sql.delete_prompt id d) h).
Proof. reflexivity. Qed.

End Methods.

(** ** Listings *)

(** C6.  On every initialised session [getProjects], [getBots projectId] and
    [getPrompts botId] return exactly the rows of their scope, ordered by
    [updated_at] descending; and the row a create operation inserts is in its
    parent's listing afterwards, that listing being ordered the same way. *)
Theorem listings_recents_first (d : Database) (h : option FileSystemFileHandle.t) :
  let s := session d h in
  (exists l, getProjects s = (Return l, s)
             /\ recents_first Project.updated_at l
             /\ Permutation l (projects d))
  /\ (forall projectId, exists l,
        getBots projectId s = (Return l, s)
        /\ recents_first Bot.updated_at l
        /\ Permutation l (filter (fun r => Bot.project_id r =? projectId) (bots d)))
  /\ (forall botId, exists l,
        getPrompts botId s = (Return l, s)
        /\ recents_first Prompt.updated_at l
        /\ Permutation l (filter (fun r => Prompt.bot_id r =? botId) (prompts d)))
  /\ (forall name description now, exists s' l rowid,
        createProject name description now s = (Return tt, s')
        /\ getProjects s' = (Return l, s')
        /\ recents_first Project.updated_at l
        /\ In (Project.mk rowid name (Some description) now now) l
        /\ ~ In rowid (map Project.id (projects d)))
  /\ (forall projectId name description now, exists s' l rowid,
        createBot projectId name description now s = (Return tt, s')
        /\ getBots projectId s' = (Return l, s')
        /\ recents_first Bot.updated_at l
        /\ In (Bot.mk rowid projectId name (Some description) now now) l
        /\ ~ In rowid (map Bot.id (bots d)))
  /\ (forall botId name now, exists s' l rowid,
        createPrompt botId name now s = (Return rowid, s')
        /\ getPrompts botId s' = (Return l, s')
        /\ recents_first Prompt.updated_at l
        /\ In (Prompt.mk rowid botId name "" "" "" defaultParams now now) l
        /\ ~ In rowid (map Prompt.id (prompts d))).
Proof.
  intros s. subst s. repeat split.
  - eexists. rewrite getProjects_eq. repeat split.
    + apply order_by_desc_sorted.
    + apply order_by_desc_perm.
  - intros projectId. eexists. rewrite getBots_eq. repeat split.
    + apply order_by_desc_sorted.
    + apply order_by_desc_perm.
  - intros botId. eexists. rewrite getPrompts_eq. repeat split.
    + apply order_by_desc_sorted.
    + apply order_by_desc_perm.
  - intros name description now.
    do 2 eexists. exists (Sql.next_rowid (map Project.id (projects d)) (seq_projects d)).
    rewrite createProject_eq, getProjects_eq. repeat split.
    + apply order_by_desc_sorted.
    + apply order_by_desc_In. simpl. apply in_or_app. right. now left.
    + apply next_rowid_not_in.
  - intros projectId name description now.
    do 2 eexists. exists (Sql.next_rowid (map Bot.id (bots d)) (seq_bots d)).
    rewrite createBot_eq, getBots_eq. repeat split.
    + apply order_by_desc_sorted.
    + apply order_by_desc_In. simpl. apply filter_In. split.
      * apply in_or_app. right. now left.
      * apply Z.eqb_refl.
    + apply next_rowid_not_in.
  - intros botId name now.
    do 2 eexists. exists (Sql.next_rowid (map Prompt.id (prompts d)) (seq_prompts d)).
    rewrite createPrompt_eq, getPrompts_eq. repeat split.
    + apply order_by_desc_sorted.
    + apply order_by_desc_In. simpl. apply filter_In. split.
      * apply in_or_app. right. now left.
      * apply Z.eqb_refl.
    + apply next_rowid_not_in.
Qed.

(** ** Partial update of a prompt *)

Lemma filter_keeps_all {A} (keep : A -> bool) (l : list A) :
  (forall x, In x l -> keep x = true) -> filter keep l = l.
Proof.
  induction l as [|x l IH]; simpl; intros H; [reflexivity|].
  rewrite (H x (or_introl eq_refl)). f_equal. apply IH. intros y Hy. apply H. now right.
Qed.

Lemma map_changes_none {A} (g : A -> A) (l : list A) :
  (forall x, In x l -> g x = x) -> map g l = l.
Proof.
  intros H. rewrite <- (map_id l) at 2. now apply map_ext_in.
Qed.

Lemma absent_id_neqb {A} (key : A -> Z) (id : Z) (l : list A) :
  ~ In id (map key l) -> forall x, In x l -> (key x =? id) = false.
Proof.
  intros H x Hx. apply Z.eqb_neq. intros E. apply H. rewrite <- E. now apply in_map.
Qed.

Lemma updatePrompt_eq
    (d : Database) (h : option FileSystemFileHandle.t)
    (p : Z) (f : PartialPrompt.t) (now : string) :
  updatePrompt p f now (session d h)
  = (Return tt,
     if has_updatable_field f
     then session
            (mkDatabase (projects d) (bots d)
               (map (fun r => if Prompt.id r =? p then patched f now r else r)
                  (prompts d))
               (seq_projects d) (seq_bots d) (seq_prompts d)) h
     else session d h).
Proof.
  destruct f as [fi fb [n|] [sp|] [up|] [dp|] [pa|] fc fu];
    try reflexivity;
    unfold updatePrompt, this_db, set_db, session, Sql.update_prompt; simpl;
    (do 4 f_equal); apply map_ext; intros [i b n0 sp0 up0 dp0 pa0 ca ua]; simpl;
    destruct (i =? p); reflexivity.
Qed.

(** C7.  [updatePrompt p f] on an initialised session: when [f] holds at least
    one of the updatable fields (name, system_prompt, user_prompt, dev_prompt,
    params), every row with id [p] gets the present fields and a fresh
    [updated_at] and keeps its other columns, every other row and both other
    tables stay as they are; when [f] holds none of them, nothing changes at
    all, [updated_at] included. *)
Theorem updatePrompt_partial_update
    (d : Database) (h : option FileSystemFileHandle.t)
    (p : Z) (f : PartialPrompt.t) (now : string) :
  updatePrompt p f now (session d h)
  = (Return tt,
     if has_updatable_field f
     then session
            (mkDatabase (projects d) (bots d)
               (map (fun r => if Prompt.id r =? p then patched f now r else r)
                  (prompts d))
               (seq_projects d) (seq_bots d) (seq_prompts d)) h
     else session d h)
  /\ (forall r,
        Prompt.id (patched f now r) = Prompt.id r
        /\ Prompt.bot_id (patched f now r) = Prompt.bot_id r
        /\ Prompt.created_at (patched f now r) = Prompt.created_at r
        /\ Prompt.updated_at (patched f now r) = now
        /\ Prompt.name (patched f now r)
           = match PartialPrompt.name f with Some v => v | None => Prompt.name r end
        /\ Prompt.system_prompt (patched f now r)
           = match PartialPrompt.system_prompt f with
             | Some v => v | None => Prompt.system_prompt r end
        /\ Prompt.user_prompt (patched f now r)
           = match PartialPrompt.user_prompt f with
             | Some v => v | None => Prompt.user_prompt r end
        /\ Prompt.dev_prompt (patched f now r)
           = match PartialPrompt.dev_prompt f with
             | Some v => v | None => Prompt.dev_prompt r end
        /\ Prompt.params (patched f now r)
           = match PartialPrompt.params f with
             | Some v => v | None => Prompt.params r end).
Proof.
  split.
  - apply updatePrompt_eq.
  - intros r. repeat split.
Qed.

(** ** Creating and duplicating prompts *)



(** C9.  [duplicatePrompt p] on an initialised session.  When [getPrompt p]
    finds a row, exactly one row is appended to the prompts: it has a rowid
    no earlier row has (so not [p]), the bot, the three bodies and the params
    of the original, and the original's name followed by " (Copy)"; the other
    tables are unchanged.  When [getPrompt p] finds none, no row has id [p]
    and the session is left as it was. *)
Theorem duplicatePrompt_copy
    (d : Database) (h : option FileSystemFileHandle.t) (p : Z) (now : string) :
  let s := session d h in
  match fst (getPrompt p s) with
  | Return (Some orig) =>
      let rowid := Sql.next_rowid (map Prompt.id (prompts d)) (seq_prompts d) in
      let copy :=
        Prompt.mk rowid (Prompt.bot_id orig) (Prompt.name orig ++ " (Copy)")%string
          (Prompt.system_prompt orig) (Prompt.user_prompt orig)
          (Prompt.dev_prompt orig) (Prompt.params orig) now now in
      In orig (prompts d) /\ Prompt.id orig = p
      /\ duplicatePrompt p now s
         = (Return tt,
            session
              (mkDatabase (projects d) (bots d) (prompts d ++ [copy])
                 (seq_projects d) (seq_bots d) rowid) h)
      /\ ~ In rowid (map Prompt.id (prompts d))
      /\ rowid <> p
  | Return None =>
      (forall r, In r (prompts d) -> Prompt.id r <> p)
      /\ duplicatePrompt p now s = (Return tt, s)
  | Throw _ => False
  end.
Proof.
  intros s. subst s. rewrite getPrompt_eq. simpl fst.
  destruct (hd_error (Sql.select_prompt_by_id p d)) as [orig|] eqn:E.
  - assert (Hin : In orig (Sql.select_prompt_by_id p d)).
    { destruct (Sql.select_prompt_by_id p d); simpl in E; [discriminate|].
      injection E as ->. now left. }
    apply filter_In in Hin. destruct Hin as [Hin Hid]. apply Z.eqb_eq in Hid.
    cbv zeta. repeat split; try assumption.
    + unfold duplicatePrompt, bind. rewrite getPrompt_eq, E. reflexivity.
    + apply next_rowid_not_in.
    + intros Heq. apply (next_rowid_not_in (map Prompt.id (prompts d)) (seq_prompts d)).
      rewrite Heq, <- Hid. now apply in_map.
  - split.
    + intros r Hr Hid.
      assert (Hsel : In r (Sql.select_prompt_by_id p d)).
      { apply filter_In. split; [exact Hr | now apply Z.eqb_eq]. }
      destruct (Sql.select_prompt_by_id p d); [contradiction | discriminate].
    + unfold duplicatePrompt, bind. rewrite getPrompt_eq, E. reflexivity.
Qed.

(** ** Operations on an id no row has *)

Lemma database_eta (d : Database) :
  mkDatabase (projects d) (bots d) (prompts d) (seq_projects d) (seq_bots d)
    (seq_prompts d) = d.
Proof. now destruct d. Qed.

(** C10.  On an initialised session, [deleteProject], [deleteBot],
    [deletePrompt] and [updatePrompt] (with any fields) called with an id that
    no row of the table concerned has return normally and leave the session,
    so every row of every table, exactly as it was. *)
Theorem absent_id_operations_change_nothing
    (d : Database) (h : option FileSystemFileHandle.t)
    (id : Z) (f : PartialPrompt.t) (now : string) :
  let s := session d h in
  (~ In id (map Project.id (projects d)) -> deleteProject id s = (Return tt, s))
  /\ (~ In id (map Bot.id (bots d)) -> deleteBot id s = (Return tt, s))
  /\ (~ In id (map Prompt.id (prompts d)) ->
      deletePrompt id s = (Return tt, s)
      /\ updatePrompt id f now s = (Return tt, s)).
Proof.
  intros s. subst s. repeat split.
  - intros H. rewrite deleteProject_eq. rewrite filter_keeps_all.
    + now rewrite database_eta.
    + intros x Hx. now rewrite (absent_id_neqb Project.id id _ H x Hx).
  - intros H. rewrite deleteBot_eq. rewrite filter_keeps_all.
    + now rewrite database_eta.
    + intros x Hx. now rewrite (absent_id_neqb Bot.id id _ H x Hx).
  - rewrite deletePrompt_eq. unfold Sql.delete_prompt. rewrite filter_keeps_all.
    + now rewrite database_eta.
    + intros x Hx. now rewrite (absent_id_neqb Prompt.id id _ H x Hx).
  - rewrite updatePrompt_eq. destruct (has_updatable_field f); [|reflexivity].
    rewrite map_changes_none.
    + now rewrite database_eta.
    + intros x Hx. now rewrite (absent_id_neqb Prompt.id id _ H x Hx).
Qed.

Lemma absent_id_operations_change_nothing_witness :
  let s := session Sample.prompts_db None in
  let f := PartialPrompt.mk None None (Some "gamma") None None None (Some "{}") None None in
  deleteProject 5 s = (Return tt, s)
  /\ deleteBot 5 s = (Return tt, s)
  /\ deletePrompt 5 s = (Return tt, s)
  /\ updatePrompt 5 f Sample.t2 s = (Return tt, s).
Proof.
  destruct (absent_id_operations_change_nothing Sample.prompts_db None 5
              (PartialPrompt.mk None None (Some "gamma") None None None (Some "{}")
                 None None) Sample.t2) as (H1 & H2 & H3).
  split; [apply H1; simpl; lia|].
  split; [apply H2; simpl; lia|].
  apply H3. simpl. lia.
Defined.

(** ** The reference format opens what it exports *)

Module ImageFacts.
Import Image.













End ImageFacts.

(** ** Export and re-open *)

(** What [export] and [init] do with any engine: [export] hands out the
    engine's export and changes nothing; [init] on bytes installs what the
    engine opens from them and keeps the file handle. *)
Lemma export_eq {engine : SqlJs} (d : Database) (h : option FileSystemFileHandle.t) :
  export (session d h) = (Return (sqlite_export d), session d h).
Proof. reflexivity. Qed.




(** ** Saving to a file whose write permission is refused *)

Lemma saveToDisk_refused {engine : SqlJs}
    (w : World) (d : Database) (h : FileSystemFileHandle.t) :
  db (dbService w) = Some d ->
  fileHandle (dbService w) = Some h ->
  access w (FileSystemFileHandle.entry h) = write_refused ->
  saveToDisk w = (Throw NotAllowedError, w).
Proof.
  intros Hd Hh Ha. unfold saveToDisk. rewrite Hd, Hh.
  unfold try_catch, bind, createWritable. rewrite Ha. reflexivity.
Qed.

(** C4, as the code has it.  For every bound session whose write permission
    is refused, [saveToDisk()] raises: the refusal caught inside it is thrown
    again, with the world exactly as before.  [handleSaveDb] catches it and
    alerts the user of a failed save; it neither falls back to a download nor
    writes a file, the service keeps its database and its file handle, and
    the remembered handle stays in IndexedDB. *)
Theorem saveToDisk_refused_rethrows {engine : SqlJs}
    (w : World) (d : Database) (h : FileSystemFileHandle.t) :
  db (dbService w) = Some d ->
  fileHandle (dbService w) = Some h ->
  access w (FileSystemFileHandle.entry h) = write_refused ->
  saveToDisk w = (Throw NotAllowedError, w)
  /\ exists w',
       handleSaveDb w = (Return tt, w')
       /\ alerts w' = NotAllowedError :: alerts w
       /\ dbService w' = dbService w
       /\ indexedDB w' = indexedDB w
       /\ downloads w' = downloads w
       /\ files w' = files w
       /\ isSaving w' = false.
Proof.
  intros Hd Hh Ha. split; [now apply (saveToDisk_refused w d h)|].
  eexists. split.
  - unfold handleSaveDb, bind, try_finally, try_catch, setIsSaving, setSaveStatus.
    simpl.
    erewrite (saveToDisk_refused _ d h); [reflexivity | exact Hd | exact Hh | exact Ha].
  - simpl. repeat split.
Qed.

Lemma saveToDisk_refused_rethrows_witness :
  saveToDisk (engine := Image.sqljs) Sample.refused
  = (Throw NotAllowedError, Sample.refused)
  /\ exists w',
       handleSaveDb (engine := Image.sqljs) Sample.refused = (Return tt, w')
       /\ alerts w' = NotAllowedError :: alerts Sample.refused
       /\ dbService w' = dbService Sample.refused
       /\ indexedDB w' = indexedDB Sample.refused
       /\ downloads w' = downloads Sample.refused
       /\ files w' = files Sample.refused
       /\ isSaving w' = false.
Proof.
  apply (saveToDisk_refused_rethrows (engine := Image.sqljs) Sample.refused
           Sample.populated Sample.handle); reflexivity.
Defined.

(** C4, as the specification states it, fails on [Sample.refused]: the save
    does not return the unbound outcome [false] but raises, the service is
    still bound to the file afterwards, and the remembered handle is still in
    its slot, also after [handleSaveDb]. *)
Lemma saveToDisk_refused_is_not_unbound :
  ~ (exists w',
       saveToDisk (engine := Image.sqljs) Sample.refused = (Return false, w')
       /\ fileHandle (dbService w') = None
       /\ indexedDB w' = Some None)
  /\ fst (saveToDisk (engine := Image.sqljs) Sample.refused) = Throw NotAllowedError
  /\ fileHandle (dbService (snd (saveToDisk (engine := Image.sqljs) Sample.refused)))
     = Some Sample.handle
  /\ indexedDB (snd (handleSaveDb (engine := Image.sqljs) Sample.refused))
     = Some (Some Sample.handle)
  /\ fileHandle (dbService (snd (handleSaveDb (engine := Image.sqljs) Sample.refused)))
     = Some Sample.handle.
Proof.
  split.
  - intros (w' & H & _). vm_compute in H. discriminate H.
  - repeat split.
Qed.

(** ** Foreign keys: what the schema declares and what the connection enforces *)

(** On a connection that enforces foreign keys, deleting a project takes its
    bots and their prompts with it. *)
Lemma delete_project_enforced_cascades (d : Database) (id : Z) :
  In id (map Project.id (projects d)) ->
  let d' := Sql.delete_project true id d in
  (forall p, In p (projects d') -> Project.id p <> id)
  /\ (forall b, In b (bots d') -> Bot.project_id b <> id)
  /\ (forall r b, In r (prompts d') -> In b (bots d) -> Bot.project_id b = id ->
                  Prompt.bot_id r <> Bot.id b).
Proof.
  intros Hid d'. subst d'. simpl.
  apply in_map_iff in Hid. destruct Hid as (p0 & Hp0 & Hin0).
  assert (Hgone : forall b, Bot.project_id b = id ->
            existsb (fun p => Project.id p =? Bot.project_id b)
              (filter (fun r => Project.id r =? id) (projects d)) = true).
  { intros b Hb. apply existsb_exists. exists p0. split.
    - apply filter_In. split; [exact Hin0 | now apply Z.eqb_eq].
    - apply Z.eqb_eq. congruence. }
  repeat split.
  - intros p Hp. apply filter_In in Hp. destruct Hp as [_ Hp].
    apply negb_true_iff, Z.eqb_neq in Hp. exact Hp.
  - intros b Hb Hpid. apply filter_In in Hb. destruct Hb as [_ Hb].
    rewrite (Hgone b Hpid) in Hb. discriminate.
  - intros r b Hr Hb Hpid Hbid. apply filter_In in Hr. destruct Hr as [_ Hr].
    apply negb_true_iff in Hr.
    assert (Hex : existsb (fun b0 => Bot.id b0 =? Prompt.bot_id r)
                    (filter
                       (fun b0 =>
                          existsb (fun p => Project.id p =? Bot.project_id b0)
                            (filter (fun r0 => Project.id r0 =? id) (projects d)))
                       (bots d)) = true).
    { apply existsb_exists. exists b. split.
      - apply filter_In. split; [exact Hb | now apply Hgone].
      - apply Z.eqb_eq. congruence. }
    congruence.
Qed.

(** On such a connection a bot cannot be inserted under a project that does
    not exist. *)
Lemma insert_bot_enforced_rejects
    (d : Database) (projectId : Z) (name description now : string) :
  ~ In projectId (map Project.id (projects d)) ->
  Sql.insert_bot true projectId name description now d = Throw Error_ForeignKeyConstraint.
Proof.
  intros H. unfold Sql.insert_bot.
  assert (E : existsb (fun p => Project.id p =? projectId) (projects d) = false).
  { apply not_true_is_false. intros Hex. apply existsb_exists in Hex.
    destruct Hex as (p & Hp & Hid). apply Z.eqb_eq in Hid. apply H.
    rewrite <- Hid. now apply in_map. }
  now rewrite E.
Qed.

(** The service's connection does not: [deleteProject] removes rows of the
    projects table and nothing else. *)
Lemma deleteProject_touches_projects_only
    (d : Database) (h : option FileSystemFileHandle.t) (id : Z) :
  exists d',
    deleteProject id (session d h) = (Return tt, session d' h)
    /\ bots d' = bots d /\ prompts d' = prompts d.
Proof.
  eexists. rewrite deleteProject_eq. repeat split.
Qed.

(** C1.  The cascade does not happen.  The session built by
    [createProject("P1","")], [createBot(1,"B1","")],
    [createPrompt(1,"New Prompt")] on a new database holds project 1, its bot
    1 and that bot's prompt 1; after [deleteProject(1)] the project is gone,
    yet [getBots(1)] still lists the bot, [getPrompts(1)] still lists the
    prompt and [getPrompt(1)] still finds it. *)
Theorem deleteProject_keeps_bots_and_prompts :
  let the_bot := Bot.mk 1 1 "B1" (Some "") Sample.t1 Sample.t1 in
  let the_prompt :=
    Prompt.mk 1 1 "New Prompt" "" "" "" defaultParams Sample.t2 Sample.t2 in
  bind (createProject "P1" "" Sample.t0)
    (fun _ => bind (createBot 1 "B1" "" Sample.t1)
       (fun _ => createPrompt 1 "New Prompt" Sample.t2)) Sample.fresh
  = (Return 1, session Sample.populated None)
  /\ exists s',
       deleteProject 1 (session Sample.populated None) = (Return tt, s')
       /\ getProject 1 s' = (Return None, s')
       /\ getBots 1 s' = (Return [the_bot], s')
       /\ getPrompts 1 s' = (Return [the_prompt], s')
       /\ getPrompt 1 s' = (Return (Some the_prompt), s').
Proof.
  cbv zeta. split; [reflexivity|].
  eexists. split; [reflexivity|]. repeat split.
Qed.

(** C2.  A bot can be created under a project that does not exist, and a
    deleted project leaves its bots behind: in the session [init()] gives,
    [createBot(999, ...)] returns normally and [getBots(999)] lists the new
    bot while [getProject(999)] finds nothing; and after [deleteProject(1)]
    on the populated session bot 1 still names project 1, which is gone. *)
Theorem createBot_accepts_missing_project :
  (exists s',
      createBot 999 "B" "" Sample.t0 Sample.fresh = (Return tt, s')
      /\ getProject 999 s' = (Return None, s')
      /\ getBots 999 s'
         = (Return [Bot.mk 1 999 "B" (Some "") Sample.t0 Sample.t0], s'))
  /\ (exists s',
        deleteProject 1 (session Sample.populated None) = (Return tt, s')
        /\ getProject 1 s' = (Return None, s')
        /\ getBot 1 s'
           = (Return (Some (Bot.mk 1 1 "B1" (Some "") Sample.t1 Sample.t1)), s')).
Proof.
  split; eexists; (split; [reflexivity|]); split; reflexivity.
Qed.

(** ** Before [init] *)

(** C3.  On a service that was never initialised only [export] raises the
    "Database not initialized" error.  Every other database operation that
    reaches the engine raises a TypeError instead, from reading a property of
    the null [db]; and [updatePrompt] with no updatable field returns normally.
    None of them changes the service. *)
Theorem operations_before_init {engine : SqlJs}
    (id : Z) (name description now : string) :
  let s := new_DatabaseService in
  let named := PartialPrompt.mk None None (Some name) None None None None None None in
  export s = (Throw Error_DatabaseNotInitialized, s)
  /\ getProjects s = (Throw TypeError_NullDereference, s)
  /\ getProject id s = (Throw TypeError_NullDereference, s)
  /\ createProject name description now s = (Throw TypeError_NullDereference, s)
  /\ updateProject id name description now s = (Throw TypeError_NullDereference, s)
  /\ deleteProject id s = (Throw TypeError_NullDereference, s)
  /\ getBots id s = (Throw TypeError_NullDereference, s)
  /\ getBot id s = (Throw TypeError_NullDereference, s)
  /\ createBot id name description now s = (Throw TypeError_NullDereference, s)
  /\ updateBot id name description now s = (Throw TypeError_NullDereference, s)
  /\ deleteBot id s = (Throw TypeError_NullDereference, s)
  /\ getPrompts id s = (Throw TypeError_NullDereference, s)
  /\ getPrompt id s = (Throw TypeError_NullDereference, s)
  /\ createPrompt id name now s = (Throw TypeError_NullDereference, s)
  /\ deletePrompt id s = (Throw TypeError_NullDereference, s)
  /\ duplicatePrompt id now s = (Throw TypeError_NullDereference, s)
  /\ updatePrompt id named now s = (Throw TypeError_NullDereference, s)
  /\ updatePrompt id PartialPrompt.empty now s = (Return tt, s)
  /\ TypeError_NullDereference <> Error_DatabaseNotInitialized.
Proof.
  cbv zeta. repeat split. discriminate.
Qed.

(** ** Single fetches: found or null *)

Lemma hd_error_filter_some {A} (keep : A -> bool) (l : list A) (x : A) :
  hd_error (filter keep l) = Some x -> In x l /\ keep x = true.
Proof.
  intros H. apply filter_In. destruct (filter keep l); simpl in H; [discriminate|].
  injection H as ->. now left.
Qed.

Lemma hd_error_filter_none {A} (keep : A -> bool) (l : list A) :
  hd_error (filter keep l) = None -> forall x, In x l -> keep x = false.
Proof.
  intros H x Hx. destruct (keep x) eqn:E; [|reflexivity].
  assert (Hin : In x (filter keep l)) by (apply filter_In; now split).
  destruct (filter keep l); [contradiction | discriminate].
Qed.

Lemma hd_error_filter_absent {A} (key : A -> Z) (id : Z) (l : list A) :
  hd_error (filter (fun r => key r =? id) l) = None -> ~ In id (map key l).
Proof.
  intros H Hin. apply in_map_iff in Hin. destruct Hin as (x & Hk & Hx).
  pose proof (hd_error_filter_none _ _ H x Hx) as E. simpl in E.
  apply Z.eqb_neq in E. contradiction.
Qed.

(** X1.  On an initialised session [getProject], [getBot] and [getPrompt]
    never raise and leave the session as it is: they return a row of the
    table that has the id asked for, or null when no row has it. *)
Theorem single_fetch_found_or_null
    (d : Database) (h : option FileSystemFileHandle.t) (id : Z) :
  (exists r, getProject id (session d h) = (Return r, session d h)
             /\ match r with
                | Some p => In p (projects d) /\ Project.id p = id
                | None => ~ In id (map Project.id (projects d))
                end)
  /\ (exists r, getBot id (session d h) = (Return r, session d h)
                /\ match r with
                   | Some b => In b (bots d) /\ Bot.id b = id
                   | None => ~ In id (map Bot.id (bots d))
                   end)
  /\ (exists r, getPrompt id (session d h) = (Return r, session d h)
                /\ match r with
                   | Some q => In q (prompts d) /\ Prompt.id q = id
                   | None => ~ In id (map Prompt.id (prompts d))
                   end).
Proof.
  repeat split.
  - eexists. rewrite getProject_eq. split; [reflexivity|].
    unfold Sql.select_project_by_id.
    destruct (hd_error (filter _ (projects d))) as [p|] eqn:E.
    + apply hd_error_filter_some in E. destruct E as [Hin Hid].
      split; [exact Hin | now apply Z.eqb_eq].
    + now apply hd_error_filter_absent in E.
  - eexists. rewrite getBot_eq. split; [reflexivity|].
    unfold Sql.select_bot_by_id.
    destruct (hd_error (filter _ (bots d))) as [p|] eqn:E.
    + apply hd_error_filter_some in E. destruct E as [Hin Hid].
      split; [exact Hin | now apply Z.eqb_eq].
    + now apply hd_error_filter_absent in E.
  - eexists. rewrite getPrompt_eq. split; [reflexivity|].
    unfold Sql.select_prompt_by_id.
    destruct (hd_error (filter _ (prompts d))) as [p|] eqn:E.
    + apply hd_error_filter_some in E. destruct E as [Hin Hid].
      split; [exact Hin | now apply Z.eqb_eq].
    + now apply hd_error_filter_absent in E.
Qed.

(** ** Update, then fetch *)

Lemma filter_map_same_key {A} (keep : A -> bool) (g : A -> A) (l : list A) :
  (forall x, keep (g x) = keep x) -> filter keep (map g l) = map g (filter keep l).
Proof.
  intros H. induction l as [|x l IH]; simpl; [reflexivity|].
  rewrite H. destruct (keep x); simpl; now rewrite IH.
Qed.

Lemma hd_error_map {A B} (g : A -> B) (l : list A) :
  hd_error (map g l) = option_map g (hd_error l).
Proof. now destruct l. Qed.

Lemma filter_then_change {A} (key : A -> Z) (g : A -> A) (id j : Z) (l : list A) :
  (forall x, key (g x) = key x) ->
  hd_error (filter (fun r => key r =? j) (map (fun r => if key r =? id then g r else r) l))
  = if j =? id then option_map g (hd_error (filter (fun r => key r =? j) l))
    else hd_error (filter (fun r => key r =? j) l).
Proof.
  intros Hkey. rewrite filter_map_same_key.
  - rewrite hd_error_map.
    destruct (hd_error (filter (fun r => key r =? j) l)) as [x|] eqn:E;
      [|now destruct (j =? id)].
    apply hd_error_filter_some in E. destruct E as [_ E]. apply Z.eqb_eq in E.
    simpl. rewrite E. now destruct (j =? id).
  - intros x. destruct (key x =? id); [now rewrite Hkey | reflexivity].
Qed.

(** X2.  After [updateProject id name description], fetching project [id]
    gives the row it gave before with the new name and description and
    [updated_at] stamped, its id and [created_at] kept (null if it was null);
    fetching any other project gives what it gave before; and the bots and
    prompts tables are untouched.  [updateBot] does the same on bots, keeping
    [project_id] as well. *)
Theorem update_then_fetch
    (d : Database) (h : option FileSystemFileHandle.t)
    (id j : Z) (name description now : string) :
  (exists d' before,
      updateProject id name description now (session d h) = (Return tt, session d' h)
      /\ getProject j (session d h) = (Return before, session d h)
      /\ getProject j (session d' h)
         = (Return
              (if j =? id
               then option_map
                      (fun r => Project.mk (Project.id r) name (Some description)
                                  (Project.created_at r) now) before
               else before),
            session d' h)
      /\ bots d' = bots d /\ prompts d' = prompts d)
  /\ (exists d' before,
        updateBot id name description now (session d h) = (Return tt, session d' h)
        /\ getBot j (session d h) = (Return before, session d h)
        /\ getBot j (session d' h)
           = (Return
                (if j =? id
                 then option_map
                        (fun r => Bot.mk (Bot.id r) (Bot.project_id r) name
                                    (Some description) (Bot.created_at r) now) before
                 else before),
              session d' h)
        /\ projects d' = projects d /\ prompts d' = prompts d).
Proof.
  split.
  - exists (Sql.update_project id name description now d). eexists.
    split; [reflexivity|]. split; [apply getProject_eq|].
    split; [|split; reflexivity].
    rewrite getProject_eq. unfold Sql.select_project_by_id. simpl.
    now rewrite (filter_then_change Project.id
                   (fun r => Project.mk (Project.id r) name (Some description)
                               (Project.created_at r) now)).
  - exists (Sql.update_bot id name description now d). eexists.
    split; [reflexivity|]. split; [apply getBot_eq|].
    split; [|split; reflexivity].
    rewrite getBot_eq. unfold Sql.select_bot_by_id. simpl.
    now rewrite (filter_then_change Bot.id
                   (fun r => Bot.mk (Bot.id r) (Bot.project_id r) name
                               (Some description) (Bot.created_at r) now)).
Qed.

(** ** Delete, then fetch and list *)

Lemma fetch_after_delete {A} (key : A -> Z) (id j : Z) (l : list A) :
  hd_error (filter (fun r => key r =? j) (filter (fun r => negb (key r =? id)) l))
  = if j =? id then None else hd_error (filter (fun r => key r =? j) l).
Proof.
  induction l as [|x l IH]; simpl; [now destruct (j =? id)|].
  destruct (key x =? id) eqn:Eid; simpl.
  - apply Z.eqb_eq in Eid. rewrite IH.
    destruct (j =? id) eqn:Ej; [reflexivity|].
    apply Z.eqb_neq in Ej.
    assert (E : (key x =? j) = false) by (apply Z.eqb_neq; congruence).
    now rewrite E.
  - destruct (key x =? j) eqn:Ej; simpl.
    + apply Z.eqb_eq in Ej. apply Z.eqb_neq in Eid.
      assert (E : (j =? id) = false) by (apply Z.eqb_neq; congruence).
      now rewrite E.
    + exact IH.
Qed.

Lemma filter_swap {A} (p q : A -> bool) (l : list A) :
  filter p (filter q l) = filter q (filter p l).
Proof.
  induction l as [|x l IH]; simpl; [reflexivity|].
  destruct (p x) eqn:Ep, (q x) eqn:Eq; simpl; rewrite ?Ep, ?Eq, IH; reflexivity.
Qed.

Lemma text_le_not_lt (a b : string) : Sql.text_le a b = true -> Sql.text_lt b a = false.
Proof.
  unfold Sql.text_lt, Sql.text_le, String.ltb, String.leb.
  rewrite (String.compare_antisym b a).
  destruct (String.compare a b); simpl; congruence.
Qed.

Section OrderByFilter.
Context {R : Type} (key : R -> string) (keep : R -> bool).

Lemma insert_desc_front (x : R) (l : list R) :
  Forall (fun z => Sql.text_le (key z) (key x) = true) l ->
  Sql.insert_desc key x l = x :: l.
Proof.
  intros H. destruct l as [|z l]; [reflexivity|]. simpl.
  apply Forall_inv in H. now rewrite (text_le_not_lt _ _ H).
Qed.

Lemma insert_desc_filter (x : R) (l : list R) :
  recents_first key l ->
  filter keep (Sql.insert_desc key x l)
  = if keep x then Sql.insert_desc key x (filter keep l) else filter keep l.
Proof.
  unfold recents_first. induction l as [|y l IH]; intros Hs; simpl.
  - now destruct (keep x).
  - apply StronglySorted_inv in Hs. destruct Hs as [Hs Hy].
    destruct (Sql.text_lt (key x) (key y)) eqn:E; simpl.
    + rewrite (IH Hs). destruct (keep y), (keep x); simpl; rewrite ?E; reflexivity.
    + destruct (keep x) eqn:Ex; simpl; [|reflexivity].
      destruct (keep y) eqn:Ey; simpl; [now rewrite E|].
      symmetry. apply insert_desc_front.
      apply text_not_lt_ge in E.
      apply Forall_forall. intros z Hz. apply filter_In in Hz. destruct Hz as [Hz _].
      rewrite Forall_forall in Hy. specialize (Hy z Hz). simpl in Hy.
      eapply text_le_trans; eassumption.
Qed.

Lemma order_by_desc_filter (l : list R) :
  Sql.order_by_desc key (filter keep l) = filter keep (Sql.order_by_desc key l).
Proof.
  induction l as [|x l IH]; simpl; [reflexivity|].
  rewrite insert_desc_filter by apply order_by_desc_sorted.
  destruct (keep x); simpl; now rewrite IH.
Qed.

End OrderByFilter.

(** X3.  After [deletePrompt id], [getPrompt id] returns null and every other
    single fetch returns what it did before; the listing of every bot is the
    listing it had before without the rows of that id, in the same order; the
    projects and bots tables are untouched. *)
Theorem deletePrompt_then_fetch
    (d : Database) (h : option FileSystemFileHandle.t) (id : Z) :
  exists d',
    deletePrompt id (session d h) = (Return tt, session d' h)
    /\ (forall j, fst (getPrompt j (session d' h))
                  = if j =? id then Return None else fst (getPrompt j (session d h)))
    /\ (forall botId,
          match fst (getPrompts botId (session d h)) with
          | Return l =>
              fst (getPrompts botId (session d' h))
              = Return (filter (fun r => negb (Prompt.id r =? id)) l)
          | Throw _ => False
          end)
    /\ projects d' = projects d /\ bots d' = bots d.
Proof.
  exists (Sql.delete_prompt id d). split; [reflexivity|]. repeat split.
  - intros j. rewrite !getPrompt_eq. simpl. unfold Sql.select_prompt_by_id. simpl.
    rewrite (fetch_after_delete Prompt.id). now destruct (j =? id).
  - intros botId. rewrite !getPrompts_eq. simpl.
    unfold Sql.select_prompts. simpl.
    now rewrite filter_swap, order_by_desc_filter.
Qed.

(** X4.  After [deleteBot id], [getBot id] returns null and every other bot
    is fetched as before; each project's listing of bots is its old listing
    without the rows of that id, in the same order; the projects table is
    untouched. *)
Theorem deleteBot_then_fetch
    (d : Database) (h : option FileSystemFileHandle.t) (id : Z) :
  exists d',
    deleteBot id (session d h) = (Return tt, session d' h)
    /\ (forall j, fst (getBot j (session d' h))
                  = if j =? id then Return None else fst (getBot j (session d h)))
    /\ (forall projectId,
          match fst (getBots projectId (session d h)) with
          | Return l =>
              fst (getBots projectId (session d' h))
              = Return (filter (fun r => negb (Bot.id r =? id)) l)
          | Throw _ => False
          end)
    /\ projects d' = projects d.
Proof.
  eexists. rewrite deleteBot_eq. split; [reflexivity|]. repeat split.
  - intros j. rewrite !getBot_eq. simpl. unfold Sql.select_bot_by_id. simpl.
    rewrite (fetch_after_delete Bot.id). now destruct (j =? id).
  - intros projectId. rewrite !getBots_eq. simpl.
    unfold Sql.select_bots. simpl.
    now rewrite filter_swap, order_by_desc_filter.
Qed.

(** ** Create, then fetch *)

Lemma fetch_after_insert {A} (key : A -> Z) (x : A) (j : Z) (l : list A) :
  ~ In (key x) (map key l) ->
  hd_error (filter (fun r => key r =? j) (l ++ [x]))
  = if j =? key x then Some x else hd_error (filter (fun r => key r =? j) l).
Proof.
  intros Hfresh. rewrite filter_app. simpl.
  destruct (j =? key x) eqn:E.
  - apply Z.eqb_eq in E. subst j. rewrite Z.eqb_refl.
    destruct (hd_error (filter (fun r => key r =? key x) l)) as [y|] eqn:Hy.
    + apply hd_error_filter_some in Hy. destruct Hy as [Hin Hk].
      apply Z.eqb_eq in Hk. exfalso. apply Hfresh. rewrite <- Hk. now apply in_map.
    + destruct (filter (fun r => key r =? key x) l); [reflexivity | discriminate].
  - rewrite Z.eqb_sym, E. now rewrite app_nil_r.
Qed.

(** X5.  A create adds one row that can be fetched and disturbs no other
    fetch: there is an id no row of the table had, such that afterwards the
    single fetch of that id returns the new row, and the single fetch of
    every other id returns what it returned before.  The new project and the
    new bot carry the name and the description given and the clock's reading
    as both [created_at] and [updated_at]; for a prompt the id is the one
    [createPrompt] returns. *)
Theorem create_then_fetch
    (d : Database) (h : option FileSystemFileHandle.t)
    (parent : Z) (name description now : string) :
  (exists d' rowid,
      createProject name description now (session d h) = (Return tt, session d' h)
      /\ ~ In rowid (map Project.id (projects d))
      /\ forall j,
           fst (getProject j (session d' h))
           = if j =? rowid
             then Return (Some (Project.mk rowid name (Some description) now now))
             else fst (getProject j (session d h)))
  /\ (exists d' rowid,
        createBot parent name description now (session d h) = (Return tt, session d' h)
        /\ ~ In rowid (map Bot.id (bots d))
        /\ forall j,
             fst (getBot j (session d' h))
             = if j =? rowid
               then Return (Some (Bot.mk rowid parent name (Some description) now now))
               else fst (getBot j (session d h)))
  /\ (exists d' rowid,
        createPrompt parent name now (session d h) = (Return rowid, session d' h)
        /\ ~ In rowid (map Prompt.id (prompts d))
        /\ forall j,
             fst (getPrompt j (session d' h))
             = if j =? rowid
               then Return
                      (Some (Prompt.mk rowid parent name "" "" "" defaultParams now now))
               else fst (getPrompt j (session d h))).
Proof.
  repeat split.
  - eexists. exists (Sql.next_rowid (map Project.id (projects d)) (seq_projects d)).
    rewrite createProject_eq. split; [reflexivity|].
    split; [apply next_rowid_not_in|]. intros j.
    rewrite !getProject_eq. simpl. unfold Sql.select_project_by_id. simpl.
    rewrite (fetch_after_insert Project.id) by (simpl; apply next_rowid_not_in).
    simpl. now destruct (j =? _).
  - eexists. exists (Sql.next_rowid (map Bot.id (bots d)) (seq_bots d)).
    rewrite createBot_eq. split; [reflexivity|].
    split; [apply next_rowid_not_in|]. intros j.
    rewrite !getBot_eq. simpl. unfold Sql.select_bot_by_id. simpl.
    rewrite (fetch_after_insert Bot.id) by (simpl; apply next_rowid_not_in).
    simpl. now destruct (j =? _).
  - eexists. exists (Sql.next_rowid (map Prompt.id (prompts d)) (seq_prompts d)).
    rewrite createPrompt_eq. split; [reflexivity|].
    split; [apply next_rowid_not_in|]. intros j.
    rewrite !getPrompt_eq. simpl. unfold Sql.select_prompt_by_id. simpl.
    rewrite (fetch_after_insert Prompt.id) by (simpl; apply next_rowid_not_in).
    simpl. now destruct (j =? _).
Qed.

(** ** What every sequence of calls keeps *)

Lemma NoDup_snoc {A} (l : list A) (x : A) : NoDup l -> ~ In x l -> NoDup (l ++ [x]).
Proof.
  intros Hl Hx. apply (Permutation_NoDup (l := x :: l)).
  - apply Permutation_cons_append.
  - now constructor.
Qed.

Lemma NoDup_map_filter {A} (key : A -> Z) (keep : A -> bool) (l : list A) :
  NoDup (map key l) -> NoDup (map key (filter keep l)).
Proof.
  induction l as [|x l IH]; simpl; intros H; [constructor|].
  inversion H as [|? ? Hx Hl]; subst.
  destruct (keep x); simpl; [|now apply IH].
  constructor; [|now apply IH].
  intros Hin. apply Hx. apply in_map_iff in Hin. destruct Hin as (y & Hy & Hin).
  apply filter_In in Hin. rewrite <- Hy. apply in_map. tauto.
Qed.

Lemma map_key_kept {A} (key : A -> Z) (g : A -> A) (l : list A) :
  (forall x, key (g x) = key x) -> map key (map g l) = map key l.
Proof.
  intros H. rewrite map_map. now apply map_ext.
Qed.

Lemma patched_or_not_id (p : Z) (f : PartialPrompt.t) (now : string) (r : Prompt.t) :
  Prompt.id (if Prompt.id r =? p then patched f now r else r) = Prompt.id r.
Proof. now destruct (Prompt.id r =? p). Qed.

Section Keys.
Context {A : Type} (key : A -> Z).

Lemma snoc_unique (l : list A) (x : A) :
  NoDup (map key l) -> ~ In (key x) (map key l) -> NoDup (map key (l ++ [x])).
Proof.
  intros Hl Hx. rewrite map_app. simpl. now apply NoDup_snoc.
Qed.

Lemma snoc_within (l : list A) (x : A) (seq : Z) :
  (forall r, In r l -> key r <= seq) -> seq < key x ->
  forall r, In r (l ++ [x]) -> key r <= key x.
Proof.
  intros Hl Hx r Hr. apply in_app_or in Hr. destruct Hr as [Hr|[<-|[]]]; [|lia].
  specialize (Hl r Hr). lia.
Qed.

Lemma map_within (g : A -> A) (l : list A) (seq : Z) :
  (forall x, key (g x) = key x) ->
  (forall r, In r l -> key r <= seq) -> forall r, In r (map g l) -> key r <= seq.
Proof.
  intros Hg Hl r Hr. apply in_map_iff in Hr. destruct Hr as (x & <- & Hx).
  rewrite Hg. now apply Hl.
Qed.

Lemma filter_within (keep : A -> bool) (l : list A) (seq : Z) :
  (forall r, In r l -> key r <= seq) -> forall r, In r (filter keep l) -> key r <= seq.
Proof.
  intros Hl r Hr. apply filter_In in Hr. now apply Hl.
Qed.

Lemma map_unique (g : A -> A) (l : list A) :
  (forall x, key (g x) = key x) -> NoDup (map key l) -> NoDup (map key (map g l)).
Proof.
  intros Hg Hl. now rewrite map_key_kept.
Qed.

End Keys.

Lemma project_stamp_id (id : Z) (name description now : string) (r : Project.t) :
  Project.id (if Project.id r =? id
              then Project.mk (Project.id r) name (Some description)
                     (Project.created_at r) now
              else r) = Project.id r.
Proof. now destruct (Project.id r =? id). Qed.

Lemma bot_stamp_id (id : Z) (name description now : string) (r : Bot.t) :
  Bot.id (if Bot.id r =? id
          then Bot.mk (Bot.id r) (Bot.project_id r) name (Some description)
                 (Bot.created_at r) now
          else r) = Bot.id r.
Proof. now destruct (Bot.id r =? id). Qed.

(** One call on an initialised session returns normally, leaves the session
    initialised and bound as it was, keeps the keys unique and within the
    counters, and lowers no counter. *)
Lemma call_keeps (o : operation) (d : Database) (h : option FileSystemFileHandle.t) :
  exists d',
    call o (session d h) = (Return tt, session d' h)
    /\ (keys_unique d -> keys_unique d')
    /\ (keys_within_sequence d -> keys_within_sequence d')
    /\ seq_projects d <= seq_projects d'
    /\ seq_bots d <= seq_bots d'
    /\ seq_prompts d <= seq_prompts d'.
Proof.
  unfold keys_unique, keys_within_sequence.
  destruct o as [name description now | id name description now | id
                | projectId name description now | id name description now | id
                | botId name now | id data now | id | id now]; simpl.
  - eexists. rewrite createProject_eq. split; [reflexivity|]. simpl.
    pose proof (next_rowid_above_sequence (map Project.id (projects d)) (seq_projects d)).
    repeat split; try tauto; try lia.
    + apply snoc_unique; [tauto | apply next_rowid_not_in].
    + intros r Hr.
      eapply (snoc_within Project.id _ _ (seq_projects d)) in Hr;
        [exact Hr | tauto | simpl; assumption].
  - exists (Sql.update_project id name description now d). split; [reflexivity|]. simpl.
    repeat split; try tauto; try lia.
    + apply (map_unique Project.id); [apply project_stamp_id | tauto].
    + apply (map_within Project.id); [apply project_stamp_id | tauto].
  - eexists. rewrite deleteProject_eq. split; [reflexivity|]. simpl.
    repeat split; try tauto; try lia.
    + apply NoDup_map_filter; tauto.
    + apply filter_within; tauto.
  - eexists. rewrite createBot_eq. split; [reflexivity|]. simpl.
    pose proof (next_rowid_above_sequence (map Bot.id (bots d)) (seq_bots d)).
    repeat split; try tauto; try lia.
    + apply snoc_unique; [tauto | apply next_rowid_not_in].
    + intros r Hr.
      eapply (snoc_within Bot.id _ _ (seq_bots d)) in Hr;
        [exact Hr | tauto | simpl; assumption].
  - exists (Sql.update_bot id name description now d). split; [reflexivity|]. simpl.
    repeat split; try tauto; try lia.
    + apply (map_unique Bot.id); [apply bot_stamp_id | tauto].
    + apply (map_within Bot.id); [apply bot_stamp_id | tauto].
  - eexists. rewrite deleteBot_eq. split; [reflexivity|]. simpl.
    repeat split; try tauto; try lia.
    + apply NoDup_map_filter; tauto.
    + apply filter_within; tauto.
  - eexists. unfold bind. rewrite createPrompt_eq. split; [reflexivity|]. simpl.
    pose proof (next_rowid_above_sequence (map Prompt.id (prompts d)) (seq_prompts d)).
    repeat split; try tauto; try lia.
    + apply snoc_unique; [tauto | apply next_rowid_not_in].
    + intros r Hr.
      eapply (snoc_within Prompt.id _ _ (seq_prompts d)) in Hr;
        [exact Hr | tauto | simpl; assumption].
  - rewrite updatePrompt_eq. destruct (has_updatable_field data).
    + eexists. split; [reflexivity|]. simpl.
      repeat split; try tauto; try lia.
      * apply (map_unique Prompt.id); [intros x; apply patched_or_not_id | tauto].
      * apply (map_within Prompt.id); [intros x; apply patched_or_not_id | tauto].
    + exists d. split; [reflexivity|]. repeat split; try tauto; lia.
  - exists (Sql.delete_prompt id d). split; [reflexivity|]. simpl.
    repeat split; try tauto; try lia.
    + apply NoDup_map_filter; tauto.
    + apply filter_within; tauto.
  - unfold duplicatePrompt, bind. rewrite getPrompt_eq.
    destruct (hd_error (Sql.select_prompt_by_id id d)) as [p|].
    + eexists. split; [reflexivity|]. simpl.
      pose proof (next_rowid_above_sequence (map Prompt.id (prompts d)) (seq_prompts d)).
      repeat split; try tauto; try lia.
      * apply snoc_unique; [tauto | apply next_rowid_not_in].
      * intros r Hr.
      eapply (snoc_within Prompt.id _ _ (seq_prompts d)) in Hr;
        [exact Hr | tauto | simpl; assumption].
    + exists d. split; [reflexivity|]. repeat split; try tauto; lia.
Qed.

Lemma calls_keep (ops : list operation) :
  forall (d : Database) (h : option FileSystemFileHandle.t),
  exists d',
    calls ops (session d h) = (Return tt, session d' h)
    /\ (keys_unique d -> keys_unique d')
    /\ (keys_within_sequence d -> keys_within_sequence d')
    /\ seq_projects d <= seq_projects d'
    /\ seq_bots d <= seq_bots d'
    /\ seq_prompts d <= seq_prompts d'.
Proof.
  induction ops as [|o ops IH]; intros d h; simpl.
  - exists d. split; [reflexivity|]. split; [tauto|]. split; [tauto|].
    repeat split; lia.
  - destruct (call_keeps o d h) as (d1 & E1 & U1 & W1 & S1 & S2 & S3).
    destruct (IH d1 h) as (d2 & E2 & U2 & W2 & T1 & T2 & T3).
    exists d2. unfold bind. rewrite E1, E2.
    split; [reflexivity|]. split; [tauto|]. split; [tauto|].
    repeat split; lia.
Qed.

(** X6.  Whatever calls are made on a new database, none of them raises, the
    session stays initialised, and afterwards no two rows of a table have
    the same id and no id is above its table's AUTOINCREMENT counter. *)
Theorem keys_unique_in_every_session
    (ops : list operation) (h : option FileSystemFileHandle.t) :
  exists d',
    calls ops (session initSchema h) = (Return tt, session d' h)
    /\ keys_unique d'
    /\ keys_within_sequence d'.
Proof.
  destruct (calls_keep ops initSchema h) as (d' & E & U & W & _).
  exists d'. split; [exact E|]. split.
  - apply U. repeat split; constructor.
  - apply W. repeat split; intros r [].
Qed.

(** X7.  An id [createPrompt] has returned is never returned again: whatever
    calls come in between, deletions of that prompt included, a later
    [createPrompt] returns a larger id. *)
Theorem prompt_ids_never_reused
    (d : Database) (h : option FileSystemFileHandle.t) (ops : list operation)
    (b b' : Z) (n now n' now' : string) :
  exists i j s1 s2 s3,
    createPrompt b n now (session d h) = (Return i, s1)
    /\ calls ops s1 = (Return tt, s2)
    /\ createPrompt b' n' now' s2 = (Return j, s3)
    /\ i < j.
Proof.
  pose (i := Sql.next_rowid (map Prompt.id (prompts d)) (seq_prompts d)).
  pose (d1 := mkDatabase (projects d) (bots d)
                (prompts d ++ [Prompt.mk i b n "" "" "" defaultParams now now])
                (seq_projects d) (seq_bots d) i).
  destruct (calls_keep ops d1 h) as (d2 & E & _ & _ & _ & _ & S).
  exists i, (Sql.next_rowid (map Prompt.id (prompts d2)) (seq_prompts d2)).
  do 3 eexists. rewrite createPrompt_eq. fold i. fold d1.
  split; [reflexivity|]. split; [exact E|]. rewrite createPrompt_eq.
  split; [reflexivity|].
  pose proof (next_rowid_above_sequence (map Prompt.id (prompts d2)) (seq_prompts d2)).
  simpl in S. lia.
Qed.

(** ** Duplicating, then listing *)

(** X8.  When [getPrompt p] finds a row, [duplicatePrompt p] makes the
    listing of that row's bot one row longer, the new row carrying the
    original's name followed by " (Copy)" and an id the listing did not have,
    and leaves the listing of every other bot exactly as it was.  When
    [getPrompt p] finds nothing, every listing is as it was. *)
Theorem duplicatePrompt_then_list
    (d : Database) (h : option FileSystemFileHandle.t) (p : Z) (now : string) :
  exists d',
    duplicatePrompt p now (session d h) = (Return tt, session d' h)
    /\ forall botId,
         match fst (getPrompt p (session d h)),
               fst (getPrompts botId (session d h)),
               fst (getPrompts botId (session d' h)) with
         | Return (Some orig), Return before, Return after =>
             if botId =? Prompt.bot_id orig
             then List.length after = S (List.length before)
                  /\ exists copy,
                       In copy after
                       /\ Prompt.name copy = (Prompt.name orig ++ " (Copy)")%string
                       /\ ~ In (Prompt.id copy) (map Prompt.id before)
             else after = before
         | Return None, Return before, Return after => after = before
         | _, _, _ => False
         end.
Proof.
  unfold duplicatePrompt, bind. rewrite getPrompt_eq.
  destruct (hd_error (Sql.select_prompt_by_id p d)) as [orig|] eqn:E.
  - eexists. split; [reflexivity|]. intros botId.
    rewrite !getPrompts_eq. simpl. unfold Sql.select_prompts. simpl.
    rewrite filter_app. simpl. rewrite (Z.eqb_sym (Prompt.bot_id orig) botId).
    destruct (botId =? Prompt.bot_id orig).
    + split.
      * rewrite !(Permutation_length (order_by_desc_perm _ _)).
        rewrite length_app. simpl. lia.
      * eexists. split; [|split].
        -- apply order_by_desc_In. apply in_or_app. right. now left.
        -- reflexivity.
        -- simpl. intros Hin. apply in_map_iff in Hin.
           destruct Hin as (x & Hx & Hin). apply order_by_desc_In in Hin.
           apply filter_In in Hin. destruct Hin as [Hin _].
           apply (next_rowid_not_in (map Prompt.id (prompts d)) (seq_prompts d)).
           rewrite <- Hx. now apply in_map.
    + now rewrite app_nil_r.
  - exists d. split; [reflexivity|]. intros botId.
    rewrite !getPrompts_eq. reflexivity.
Qed.

(** ** Opening a prompt in the editor and saving it *)

Lemma or_default_empty (s : string) : PromptEditor.or_default s "" = s.
Proof.
  unfold PromptEditor.or_default. destruct (String.eqb_spec s ""); congruence.
Qed.

Lemma edits_run (l : list (PromptEditor.field * string)) :
  forall (s : DatabaseService) (e : PromptEditor.t),
  exists dirt,
    PromptEditor.edits l (s, e)
    = (Return tt,
       (s, PromptEditor.mk (PromptEditor.prompt e) dirt
             (PromptEditor.last_edit PromptEditor.field_name l (PromptEditor.name e))
             (PromptEditor.last_edit PromptEditor.field_systemPrompt l
                (PromptEditor.systemPrompt e))
             (PromptEditor.last_edit PromptEditor.field_devPrompt l
                (PromptEditor.devPrompt e))
             (PromptEditor.last_edit PromptEditor.field_notes l (PromptEditor.notes e))
             (PromptEditor.last_edit PromptEditor.field_params l
                (PromptEditor.params e)))).
Proof.
  induction l as [|[f val] l IH]; intros s e; simpl.
  - exists (PromptEditor.dirty e). now destruct e.
  - unfold bind. destruct f; simpl;
      match goal with
      | |- context [PromptEditor.edits l (s, ?e')] =>
          destruct (IH s e') as (dirt & E); rewrite E
      end; exists dirt; reflexivity.
Qed.

(** X9.  The editor opened on prompt [id], edited and saved.  When the
    prompt exists, the row fetched afterwards has, in each of name,
    system_prompt, user_prompt (the form's developer prompt), dev_prompt (the
    form's notes) and params, the last value typed into that field, or what
    the row held before when the field was not edited, except that params
    that were the empty text and were not edited become "{}"; the id, the
    bot, [created_at] are kept, [updated_at] is stamped, and the form is
    clean.  When the prompt does not exist, saving writes nothing. *)
Theorem editor_load_edit_save
    (d : Database) (h : option FileSystemFileHandle.t) (id : Z) (now : string)
    (l : list (PromptEditor.field * string)) :
  match fst (getPrompt id (session d h)) with
  | Return (Some r) =>
      exists d' form,
        bind (PromptEditor.load id)
          (fun _ => bind (PromptEditor.edits l)
             (fun _ => PromptEditor.handleSave id now))
          (session d h, PromptEditor.initial)
        = (Return tt, (session d' h, form))
        /\ getPrompt id (session d' h)
           = (Return
                (Some
                   (Prompt.mk (Prompt.id r) (Prompt.bot_id r)
                      (PromptEditor.last_edit PromptEditor.field_name l (Prompt.name r))
                      (PromptEditor.last_edit PromptEditor.field_systemPrompt l
                         (Prompt.system_prompt r))
                      (PromptEditor.last_edit PromptEditor.field_devPrompt l
                         (Prompt.user_prompt r))
                      (PromptEditor.last_edit PromptEditor.field_notes l
                         (Prompt.dev_prompt r))
                      (PromptEditor.last_edit PromptEditor.field_params l
                         (if (Prompt.params r =? "")%string then "{}"
                          else Prompt.params r))
                      (Prompt.created_at r) now)),
              session d' h)
        /\ PromptEditor.dirty form = false
        /\ PromptEditor.prompt form = Some r
        /\ projects d' = projects d /\ bots d' = bots d
  | Return None =>
      exists form,
        bind (PromptEditor.load id)
          (fun _ => bind (PromptEditor.edits l)
             (fun _ => PromptEditor.handleSave id now))
          (session d h, PromptEditor.initial)
        = (Return tt, (session d h, form))
  | Throw _ => False
  end.
Proof.
  rewrite getPrompt_eq. simpl fst.
  destruct (hd_error (Sql.select_prompt_by_id id d)) as [r|] eqn:E.
  - unfold bind at 1. unfold PromptEditor.load. rewrite getPrompt_eq, E.
    cbn [PromptEditor.dirty PromptEditor.initial].
    unfold bind at 1.
    match goal with
    | |- context [PromptEditor.edits l (?s, ?e)] =>
        destruct (edits_run l s e) as (dirt & El); rewrite El
    end.
    unfold PromptEditor.handleSave.
    cbn [PromptEditor.prompt PromptEditor.name PromptEditor.systemPrompt
           PromptEditor.devPrompt PromptEditor.notes PromptEditor.params].
    rewrite updatePrompt_eq. cbn [has_updatable_field PartialPrompt.name].
    do 2 eexists. split; [reflexivity|].
    split; [|repeat split].
    rewrite getPrompt_eq. unfold Sql.select_prompt_by_id. cbn [prompts].
    rewrite (filter_then_change Prompt.id) by reflexivity.
    rewrite Z.eqb_refl. unfold Sql.select_prompt_by_id in E. rewrite E.
    simpl. rewrite !or_default_empty. reflexivity.
  - unfold bind at 1. unfold PromptEditor.load. rewrite getPrompt_eq, E.
    unfold bind at 1.
    match goal with
    | |- context [PromptEditor.edits l (?s, ?e)] =>
        destruct (edits_run l s e) as (dirt & El); rewrite El
    end.
    eexists. reflexivity.
Qed.

(** ** The save button, case by case *)

(** X10.  [handleSaveDb] never raises, whatever the state: it ends with
    [isSaving] false, and the service (database and file handle) and the
    remembered handle are what they were.  Either no alert is shown, or one
    alert is shown and then no file was written and nothing was downloaded. *)
Theorem handleSaveDb_never_raises {engine : SqlJs} (w : World) :
  exists w',
    handleSaveDb w = (Return tt, w')
    /\ isSaving w' = false
    /\ dbService w' = dbService w
    /\ indexedDB w' = indexedDB w
    /\ (alerts w' = alerts w
        \/ exists e, alerts w' = e :: alerts w
                     /\ files w' = files w /\ downloads w' = downloads w).
Proof.
  destruct w as [[[d|] [h|]] js acc fs idb saving status al dl].
  - destruct (acc (FileSystemFileHandle.entry h)) eqn:Ha;
      unfold handleSaveDb, saveToDisk, bind, try_finally, try_catch, setIsSaving,
        setSaveStatus, createWritable, write_and_close, alert, ret, throw;
      cbn; rewrite Ha; cbn;
      eexists; (split; [reflexivity|]); cbn; repeat split;
      first [left; reflexivity | right; eexists; repeat split].
  - eexists. split; [reflexivity|]. cbn. repeat split. left. reflexivity.
  - eexists. split; [reflexivity|]. cbn. repeat split.
    right. eexists. repeat split.
  - eexists. split; [reflexivity|]. cbn. repeat split.
    right. eexists. repeat split.
Qed.

(** X11.  With a database, a file handle and write access granted,
    [handleSaveDb] writes the engine's export of the database to the file of
    the handle, shows "Saved to disk!", downloads nothing and alerts nothing;
    reading the file back gives those bytes. *)
Theorem handleSaveDb_writes_through {engine : SqlJs}
    (w : World) (d : Database) (h : FileSystemFileHandle.t) :
  db (dbService w) = Some d ->
  fileHandle (dbService w) = Some h ->
  access w (FileSystemFileHandle.entry h) = write_granted ->
  exists w',
    handleSaveDb w = (Return tt, w')
    /\ files w' = (FileSystemFileHandle.entry h, sqlite_export d) :: files w
    /\ Loader.getFile h w' = (Return (sqlite_export d), w')
    /\ saveStatus w' = "Saved to disk!"
    /\ downloads w' = downloads w
    /\ alerts w' = alerts w.
Proof.
  destruct w as [[db0 fh0] js acc fs idb saving status al dl]. simpl.
  intros -> -> Ha.
  unfold handleSaveDb, saveToDisk, bind, try_finally, try_catch, setIsSaving,
    setSaveStatus, createWritable, write_and_close, ret; simpl. rewrite Ha. simpl.
  eexists. split; [reflexivity|]. simpl. repeat split.
  unfold Loader.getFile. simpl. rewrite Ha, Nat.eqb_refl. reflexivity.
Qed.

Lemma handleSaveDb_writes_through_witness :
  exists w',
    handleSaveDb (engine := Image.sqljs) Scenario.bound = (Return tt, w')
    /\ files w' = [(7%nat, Image.to_bytes Sample.populated)]
    /\ Loader.getFile Sample.handle w' = (Return (Image.to_bytes Sample.populated), w')
    /\ saveStatus w' = "Saved to disk!"
    /\ downloads w' = []
    /\ alerts w' = [].
Proof.
  apply (handleSaveDb_writes_through (engine := Image.sqljs) Scenario.bound
           Sample.populated Sample.handle); reflexivity.
Defined.

(** X12.  With a database and no file handle, [handleSaveDb] hands the
    engine's export of the database to the user as a download, shows
    "Downloaded", writes no file and alerts nothing. *)
Theorem handleSaveDb_downloads_when_unbound {engine : SqlJs}
    (w : World) (d : Database) :
  db (dbService w) = Some d ->
  fileHandle (dbService w) = None ->
  exists w',
    handleSaveDb w = (Return tt, w')
    /\ downloads w' = sqlite_export d :: downloads w
    /\ saveStatus w' = "Downloaded"
    /\ files w' = files w
    /\ alerts w' = alerts w.
Proof.
  destruct w as [[db0 fh0] js acc fs idb saving status al dl]. simpl.
  intros -> ->. eexists. split; [reflexivity|]. simpl. repeat split.
Qed.

Lemma handleSaveDb_downloads_when_unbound_witness :
  exists w',
    handleSaveDb (engine := Image.sqljs) Scenario.unbound = (Return tt, w')
    /\ downloads w' = [Image.to_bytes Sample.populated]
    /\ saveStatus w' = "Downloaded"
    /\ files w' = []
    /\ alerts w' = [].
Proof.
  apply (handleSaveDb_downloads_when_unbound (engine := Image.sqljs) Scenario.unbound
           Sample.populated); reflexivity.
Defined.

(** X13.  Before [init], [handleSaveDb] alerts the "Database not initialized"
    error of [export], whether or not a file handle is set: nothing is
    written, nothing is downloaded, and the status line stays empty. *)
Theorem handleSaveDb_before_init {engine : SqlJs} (w : World) :
  db (dbService w) = None ->
  exists w',
    handleSaveDb w = (Return tt, w')
    /\ alerts w' = Error_DatabaseNotInitialized :: alerts w
    /\ files w' = files w
    /\ downloads w' = downloads w
    /\ saveStatus w' = "".
Proof.
  destruct w as [[db0 fh0] js acc fs idb saving status al dl]. simpl.
  intros ->. destruct fh0; eexists; (split; [reflexivity|]); simpl; repeat split.
Qed.

Lemma handleSaveDb_before_init_witness :
  exists w',
    handleSaveDb (engine := Image.sqljs) (Sample.browser new_DatabaseService)
    = (Return tt, w')
    /\ alerts w' = [Error_DatabaseNotInitialized]
    /\ files w' = []
    /\ downloads w' = []
    /\ saveStatus w' = "".
Proof.
  apply (handleSaveDb_before_init (engine := Image.sqljs)
           (Sample.browser new_DatabaseService)); reflexivity.
Defined.

(** ** The remembered handle *)

(** X14.  In a browser with IndexedDB, the remembered handle is a single
    slot: [getHandle] returns what the slot holds and changes nothing; after
    [saveHandle h1] and [saveHandle h2], [getHandle] returns [h2]; after
    [clearHandle], it returns nothing.  None of the three touches the
    service or the files. *)
Theorem remembered_handle_is_one_slot
    (w : World) (slot : option FileSystemFileHandle.t)
    (h1 h2 : FileSystemFileHandle.t) :
  indexedDB w = Some slot ->
  StorageService.getHandle w = (Return slot, w)
  /\ exists w1 w2 w3,
       StorageService.saveHandle h1 w = (Return tt, w1)
       /\ StorageService.getHandle w1 = (Return (Some h1), w1)
       /\ StorageService.saveHandle h2 w1 = (Return tt, w2)
       /\ StorageService.getHandle w2 = (Return (Some h2), w2)
       /\ StorageService.clearHandle w2 = (Return tt, w3)
       /\ StorageService.getHandle w3 = (Return None, w3)
       /\ dbService w3 = dbService w
       /\ files w3 = files w.
Proof.
  intros H. unfold StorageService.getHandle, StorageService.saveHandle,
    StorageService.clearHandle. rewrite H. split; [reflexivity|].
  do 3 eexists. simpl. repeat split.
Qed.

Lemma remembered_handle_is_one_slot_witness :
  StorageService.getHandle Scenario.bound = (Return None, Scenario.bound)
  /\ exists w1 w2 w3,
       StorageService.saveHandle Sample.handle Scenario.bound = (Return tt, w1)
       /\ StorageService.getHandle w1 = (Return (Some Sample.handle), w1)
       /\ StorageService.saveHandle (FileSystemFileHandle.mk "other.db" 9) w1
          = (Return tt, w2)
       /\ StorageService.getHandle w2
          = (Return (Some (FileSystemFileHandle.mk "other.db" 9)), w2)
       /\ StorageService.clearHandle w2 = (Return tt, w3)
       /\ StorageService.getHandle w3 = (Return None, w3)
       /\ dbService w3 = dbService Scenario.bound
       /\ files w3 = files Scenario.bound.
Proof.
  apply (remembered_handle_is_one_slot Scenario.bound None Sample.handle
           (FileSystemFileHandle.mk "other.db" 9)). reflexivity.
Defined.

(** ** The loader *)

(** Unfolds the handlers of the loader down to the state they compute. *)
Ltac run_loader :=
  unfold Loader.handleNew, Loader.handleCreateAtLocation, Loader.handleOpenLocation,
    Loader.handleLoadSaved, Loader.handleLoadSaved_catch, Loader.loadFile, Loader.mount;
  unfold saveToDisk, init, Loader.getFile, StorageService.getHandle,
    StorageService.saveHandle, StorageService.clearHandle, createWritable,
    write_and_close, setFileHandle;
  unfold Loader.in_world, on_dbService, Loader.setLoading, Loader.setError,
    Loader.setSavedHandle, Loader.onLoaded, bind, try_catch, ret, throw.

(** X15.  "Create New Database".  With sql.js loaded and IndexedDB present
    the page ends loaded on an empty database, bound to no file, with the
    remembered handle forgotten.  Without sql.js nothing changes but the
    error shown.  With sql.js but without IndexedDB the service is already
    re-initialised and unbound when forgetting the handle fails, and the page
    shows the engine error and is not loaded.  No file is written in any
    case. *)
Theorem handleNew_outcome {engine : SqlJs} (p : Loader.Page) :
  exists p',
    Loader.handleNew p = (Return tt, p')
    /\ files (Loader.world p') = files (Loader.world p)
    /\ match window_initSqlJs (Loader.world p), indexedDB (Loader.world p) with
       | true, Some _ =>
           dbService (Loader.world p') = mkDatabaseService (Some initSchema) None
           /\ indexedDB (Loader.world p') = Some None
           /\ Loader.loaded (Loader.view p') = true
           /\ Loader.error (Loader.view p') = Loader.error (Loader.view p)
       | true, None =>
           dbService (Loader.world p') = mkDatabaseService (Some initSchema) None
           /\ Loader.loaded (Loader.view p') = Loader.loaded (Loader.view p)
           /\ Loader.error (Loader.view p') = Some "Failed to initialize database engine."
           /\ Loader.loading (Loader.view p') = false
       | false, _ =>
           Loader.world p' = Loader.world p
           /\ Loader.loaded (Loader.view p') = Loader.loaded (Loader.view p)
           /\ Loader.error (Loader.view p') = Some "Failed to initialize database engine."
           /\ Loader.loading (Loader.view p') = false
       end.
Proof.
  destruct p as [[[db0 fh0] js acc fs idb saving status al dl] [err ld sh lo]].
  destruct js, idb as [slot|]; run_loader; cbn;
    eexists; (split; [reflexivity|]); cbn; repeat split.
Qed.

(** X16.  "Create at location", in a browser with sql.js and IndexedDB.
    When the user picks a file that can be written, the file receives the
    export of an empty database, the service is bound to the handle, the
    handle is remembered and the page is loaded.  When the file cannot be
    written, nothing is written or remembered and the page shows the error
    and is not loaded, but the service has already been re-initialised and
    bound to the handle.  When the user cancels the picker, nothing changes
    and no error is shown. *)
Theorem handleCreateAtLocation_outcome {engine : SqlJs}
    (message_of : exn -> string) (picked : Loader.pick) (p : Loader.Page)
    (slot : option FileSystemFileHandle.t) :
  window_initSqlJs (Loader.world p) = true ->
  indexedDB (Loader.world p) = Some slot ->
  exists p',
    Loader.handleCreateAtLocation message_of picked p = (Return tt, p')
    /\ match picked with
       | Loader.chosen handle =>
           dbService (Loader.world p')
           = mkDatabaseService (Some initSchema) (Some handle)
           /\ match access (Loader.world p) (FileSystemFileHandle.entry handle) with
              | write_granted =>
                  files (Loader.world p')
                  = (FileSystemFileHandle.entry handle, sqlite_export initSchema)
                      :: files (Loader.world p)
                  /\ indexedDB (Loader.world p') = Some (Some handle)
                  /\ Loader.loaded (Loader.view p') = true
                  /\ Loader.error (Loader.view p') = Loader.error (Loader.view p)
              | write_refused =>
                  files (Loader.world p') = files (Loader.world p)
                  /\ indexedDB (Loader.world p') = Some slot
                  /\ Loader.loaded (Loader.view p') = Loader.loaded (Loader.view p)
                  /\ Loader.error (Loader.view p')
                     = Some ("Failed to create file: " ++ message_of NotAllowedError)%string
              | entry_gone =>
                  files (Loader.world p') = files (Loader.world p)
                  /\ indexedDB (Loader.world p') = Some slot
                  /\ Loader.loaded (Loader.view p') = Loader.loaded (Loader.view p)
                  /\ Loader.error (Loader.view p')
                     = Some ("Failed to create file: " ++ message_of NotFoundError)%string
              end
       | Loader.aborted =>
           Loader.world p' = Loader.world p
           /\ Loader.error (Loader.view p') = Loader.error (Loader.view p)
           /\ Loader.loaded (Loader.view p') = Loader.loaded (Loader.view p)
           /\ Loader.loading (Loader.view p') = false
       | Loader.picker_failed e =>
           Loader.world p' = Loader.world p
           /\ Loader.loaded (Loader.view p') = Loader.loaded (Loader.view p)
           /\ Loader.loading (Loader.view p') = false
       end.
Proof.
  destruct p as [[[db0 fh0] js acc fs idb saving status al dl] [err ld sh lo]].
  cbn. intros -> ->.
  destruct picked as [handle| |e].
  - destruct (acc (FileSystemFileHandle.entry handle)) eqn:Ha;
      run_loader; cbn; rewrite Ha; cbn;
      eexists; (split; [reflexivity|]); cbn; repeat split.
  - eexists. split; [reflexivity|]. cbn. repeat split.
  - eexists. split; [reflexivity|]. cbn. repeat split.
Qed.

Lemma handleCreateAtLocation_outcome_witness :
  exists p',
    Loader.handleCreateAtLocation (engine := Image.sqljs) Scenario.message_of
      (Loader.chosen Sample.handle) Scenario.first_visit = (Return tt, p')
    /\ dbService (Loader.world p') = mkDatabaseService (Some initSchema) (Some Sample.handle)
    /\ files (Loader.world p') = [(7%nat, Image.to_bytes initSchema)]
    /\ indexedDB (Loader.world p') = Some (Some Sample.handle)
    /\ Loader.loaded (Loader.view p') = true
    /\ Loader.error (Loader.view p') = None.
Proof.
  destruct (handleCreateAtLocation_outcome (engine := Image.sqljs) Scenario.message_of
              (Loader.chosen Sample.handle) Scenario.first_visit None eq_refl eq_refl)
    as (p' & E & Hs & Hf & Hi & Hl & He).
  exists p'. repeat split; assumption.
Defined.


(** X18.  "Open location" on a file that can be read and that the engine
    opens as [d], in a browser with sql.js and IndexedDB: the service holds
    the database opened from the bytes of the file and is bound to the chosen
    handle, the handle is remembered, the page is loaded, and no error is
    set. *)
Theorem handleOpenLocation_opens {engine : SqlJs}
    (message_of : exn -> string) (handle : FileSystemFileHandle.t)
    (p : Loader.Page) (u8 : list byte) (d : Database)
    (slot : option FileSystemFileHandle.t) :
  Loader.getFile handle (Loader.world p) = (Return u8, Loader.world p) ->
  window_initSqlJs (Loader.world p) = true ->
  sqlite_open u8 = d ->
  indexedDB (Loader.world p) = Some slot ->
  exists p',
    Loader.handleOpenLocation message_of (Loader.chosen handle) p = (Return tt, p')
    /\ dbService (Loader.world p') = mkDatabaseService (Some d) (Some handle)
    /\ indexedDB (Loader.world p') = Some (Some handle)
    /\ Loader.loaded (Loader.view p') = true
    /\ Loader.error (Loader.view p') = Loader.error (Loader.view p).
Proof.
  destruct p as [[[db0 fh0] js acc fs idb saving status al dl] [err ld sh lo]].
  cbn. intros Hfile -> Hopen ->.
  unfold Loader.handleOpenLocation, bind, try_catch, Loader.in_world at 1.
  cbn. rewrite Hfile. cbn.
  unfold Loader.in_world, init, on_dbService, setFileHandle,
    StorageService.saveHandle, Loader.onLoaded. cbn. rewrite Hopen. cbn.
  eexists. split; [reflexivity|]. cbn. repeat split.
Qed.

Lemma handleOpenLocation_opens_witness :
  exists p',
    Loader.handleOpenLocation (engine := Image.sqljs) Scenario.message_of
      (Loader.chosen Sample.handle) Scenario.returning = (Return tt, p')
    /\ dbService (Loader.world p')
       = mkDatabaseService (Some Sample.populated) (Some Sample.handle)
    /\ indexedDB (Loader.world p') = Some (Some Sample.handle)
    /\ Loader.loaded (Loader.view p') = true
    /\ Loader.error (Loader.view p') = None.
Proof.
  apply (handleOpenLocation_opens (engine := Image.sqljs) Scenario.message_of
           Sample.handle Scenario.returning (Image.to_bytes Sample.populated)
           Sample.populated (Some Sample.handle)).
  - reflexivity.
  - reflexivity.
  - vm_compute. reflexivity.
  - reflexivity.
Defined.

(** X19.  "Load saved" when the permission is neither granted already nor
    granted on request: the page shows "... Permission denied", forgets the
    saved handle, removes the remembered handle from IndexedDB (when there
    is one), and leaves the service and the files untouched; the page is not
    loaded. *)
Theorem handleLoadSaved_permission_refused {engine : SqlJs}
    (message_of : exn -> string) (query request : Loader.PermissionState)
    (p : Loader.Page) (h : FileSystemFileHandle.t) :
  Loader.savedHandle (Loader.view p) = Some h ->
  Loader.is_granted query = false ->
  Loader.is_granted request = false ->
  exists p',
    Loader.handleLoadSaved message_of query request p = (Return tt, p')
    /\ dbService (Loader.world p') = dbService (Loader.world p)
    /\ files (Loader.world p') = files (Loader.world p)
    /\ indexedDB (Loader.world p')
       = match indexedDB (Loader.world p) with
         | Some _ => Some None
         | None => None
         end
    /\ Loader.savedHandle (Loader.view p') = None
    /\ Loader.error (Loader.view p')
       = Some
           "Failed to load saved file. It may have been moved or deleted. Permission denied"
    /\ Loader.loading (Loader.view p') = false
    /\ Loader.loaded (Loader.view p') = Loader.loaded (Loader.view p).
Proof.
  destruct p as [[[db0 fh0] js acc fs idb saving status al dl] [err ld sh lo]].
  cbn. intros -> Hq Hr.
  unfold Loader.handleLoadSaved. cbn. unfold bind at 1. cbn. rewrite Hq, Hr. cbn.
  destruct idb as [slot|]; run_loader; cbn;
    eexists; (split; [reflexivity|]); cbn; repeat split.
Qed.

Lemma handleLoadSaved_permission_refused_witness :
  exists p',
    Loader.handleLoadSaved (engine := Image.sqljs) Scenario.message_of
      Loader.prompt Loader.denied Scenario.returning = (Return tt, p')
    /\ dbService (Loader.world p') = new_DatabaseService
    /\ files (Loader.world p') = [(7%nat, Image.to_bytes Sample.populated)]
    /\ indexedDB (Loader.world p') = Some None
    /\ Loader.savedHandle (Loader.view p') = None
    /\ Loader.error (Loader.view p')
       = Some
           "Failed to load saved file. It may have been moved or deleted. Permission denied"
    /\ Loader.loading (Loader.view p') = false
    /\ Loader.loaded (Loader.view p') = false.
Proof.
  apply (handleLoadSaved_permission_refused (engine := Image.sqljs) Scenario.message_of
           Loader.prompt Loader.denied Scenario.returning Sample.handle); reflexivity.
Defined.

(** X20.  "Load saved" with the permission granted (already, or on request),
    a saved file that can be read and that the engine opens as [d], and
    sql.js loaded: the service holds the database opened from the file and is bound
    to the saved handle, the page is loaded, and neither the files nor the
    remembered handle change. *)
Theorem handleLoadSaved_opens {engine : SqlJs}
    (message_of : exn -> string) (query request : Loader.PermissionState)
    (p : Loader.Page) (h : FileSystemFileHandle.t) (u8 : list byte) (d : Database) :
  Loader.savedHandle (Loader.view p) = Some h ->
  Loader.is_granted query || Loader.is_granted request = true ->
  Loader.getFile h (Loader.world p) = (Return u8, Loader.world p) ->
  window_initSqlJs (Loader.world p) = true ->
  sqlite_open u8 = d ->
  exists p',
    Loader.handleLoadSaved message_of query request p = (Return tt, p')
    /\ dbService (Loader.world p') = mkDatabaseService (Some d) (Some h)
    /\ files (Loader.world p') = files (Loader.world p)
    /\ indexedDB (Loader.world p') = indexedDB (Loader.world p)
    /\ Loader.loaded (Loader.view p') = true
    /\ Loader.error (Loader.view p') = Loader.error (Loader.view p).
Proof.
  destruct p as [[[db0 fh0] js acc fs idb saving status al dl] [err ld sh lo]].
  cbn. intros -> Hperm Hfile -> Hopen.
  assert (Hneg : negb (Loader.is_granted query) && negb (Loader.is_granted request)
                 = false).
  { destruct (Loader.is_granted query), (Loader.is_granted request);
      simpl in *; congruence. }
  unfold Loader.handleLoadSaved. cbn. unfold bind at 1. cbn. rewrite Hneg.
  unfold try_catch, bind, Loader.in_world at 1. cbn. rewrite Hfile. cbn.
  unfold Loader.in_world, init, on_dbService, setFileHandle, Loader.onLoaded.
  cbn. rewrite Hopen. cbn.
  eexists. split; [reflexivity|]. cbn. repeat split.
Qed.

Lemma handleLoadSaved_opens_witness :
  exists p',
    Loader.handleLoadSaved (engine := Image.sqljs) Scenario.message_of
      Loader.prompt Loader.granted Scenario.returning = (Return tt, p')
    /\ dbService (Loader.world p')
       = mkDatabaseService (Some Sample.populated) (Some Sample.handle)
    /\ files (Loader.world p') = [(7%nat, Image.to_bytes Sample.populated)]
    /\ indexedDB (Loader.world p') = Some (Some Sample.handle)
    /\ Loader.loaded (Loader.view p') = true
    /\ Loader.error (Loader.view p') = None.
Proof.
  apply (handleLoadSaved_opens (engine := Image.sqljs) Scenario.message_of
           Loader.prompt Loader.granted Scenario.returning Sample.handle
           (Image.to_bytes Sample.populated) Sample.populated).
  - reflexivity.
  - reflexivity.
  - reflexivity.
  - reflexivity.
  - vm_compute. reflexivity.
Defined.

(** X21.  "Load saved" when sql.js is not loaded (permission granted, file
    readable): the error shown ends in "SQL.js not loaded", a text with
    neither "found" nor "denied" in it, so the saved handle and the
    remembered handle are both kept; the service and the files are
    untouched and the page is not loaded. *)
Theorem handleLoadSaved_keeps_handle_without_sqljs {engine : SqlJs}
    (message_of : exn -> string) (query request : Loader.PermissionState)
    (p : Loader.Page) (h : FileSystemFileHandle.t) (u8 : list byte) :
  Loader.savedHandle (Loader.view p) = Some h ->
  Loader.is_granted query || Loader.is_granted request = true ->
  Loader.getFile h (Loader.world p) = (Return u8, Loader.world p) ->
  window_initSqlJs (Loader.world p) = false ->
  exists p',
    Loader.handleLoadSaved message_of query request p = (Return tt, p')
    /\ Loader.world p' = Loader.world p
    /\ Loader.savedHandle (Loader.view p') = Some h
    /\ Loader.error (Loader.view p')
       = Some
           "Failed to load saved file. It may have been moved or deleted. SQL.js not loaded"
    /\ Loader.loading (Loader.view p') = false
    /\ Loader.loaded (Loader.view p') = Loader.loaded (Loader.view p).
Proof.
  destruct p as [[[db0 fh0] js acc fs idb saving status al dl] [err ld sh lo]].
  cbn. intros -> Hperm Hfile ->.
  assert (Hneg : negb (Loader.is_granted query) && negb (Loader.is_granted request)
                 = false).
  { destruct (Loader.is_granted query), (Loader.is_granted request);
      simpl in *; congruence. }
  unfold Loader.handleLoadSaved. cbn. unfold bind at 1. cbn. rewrite Hneg.
  unfold try_catch, bind, Loader.in_world at 1. cbn. rewrite Hfile. cbn.
  eexists. split; [reflexivity|]. cbn. repeat split.
Qed.

Lemma handleLoadSaved_keeps_handle_without_sqljs_witness :
  let p :=
    Loader.mkPage
      (mkWorld new_DatabaseService false (fun _ => write_granted)
         [(7%nat, Image.to_bytes Sample.populated)] (Some (Some Sample.handle))
         false "" [] [])
      (Loader.mk None false (Some Sample.handle) false) in
  exists p',
    Loader.handleLoadSaved (engine := Image.sqljs) Scenario.message_of
      Loader.granted Loader.granted p = (Return tt, p')
    /\ Loader.world p' = Loader.world p
    /\ Loader.savedHandle (Loader.view p') = Some Sample.handle
    /\ Loader.error (Loader.view p')
       = Some
           "Failed to load saved file. It may have been moved or deleted. SQL.js not loaded"
    /\ Loader.loading (Loader.view p') = false
    /\ Loader.loaded (Loader.view p') = false.
Proof.
  intros p.
  exact (handleLoadSaved_keeps_handle_without_sqljs (engine := Image.sqljs)
           Scenario.message_of Loader.granted Loader.granted p Sample.handle
           (Image.to_bytes Sample.populated) eq_refl eq_refl eq_refl eq_refl).
Defined.

(** X22.  A file dropped or uploaded.  The handler never raises and writes
    no file, and the content is not checked.  When sql.js is loaded the
    service holds whatever the engine opens from the content and is bound to
    no file; with IndexedDB present the remembered handle is forgotten and
    the page is loaded with no error set, without IndexedDB the page shows
    "Invalid SQLite file provided." and is not marked loaded.  When sql.js is
    not loaded the service and the remembered handle are untouched and the
    same error is shown. *)
Theorem loadFile_outcome {engine : SqlJs} (content : list byte) (p : Loader.Page) :
  exists p',
    Loader.loadFile content p = (Return tt, p')
    /\ files (Loader.world p') = files (Loader.world p)
    /\ match window_initSqlJs (Loader.world p), indexedDB (Loader.world p) with
       | true, Some _ =>
           dbService (Loader.world p')
           = mkDatabaseService (Some (sqlite_open content)) None
           /\ indexedDB (Loader.world p') = Some None
           /\ Loader.loaded (Loader.view p') = true
           /\ Loader.error (Loader.view p') = Loader.error (Loader.view p)
       | true, None =>
           dbService (Loader.world p')
           = mkDatabaseService (Some (sqlite_open content)) None
           /\ indexedDB (Loader.world p') = None
           /\ Loader.error (Loader.view p') = Some "Invalid SQLite file provided."
           /\ Loader.loading (Loader.view p') = false
           /\ Loader.loaded (Loader.view p') = Loader.loaded (Loader.view p)
       | false, _ =>
           Loader.world p' = Loader.world p
           /\ Loader.error (Loader.view p') = Some "Invalid SQLite file provided."
           /\ Loader.loading (Loader.view p') = false
           /\ Loader.loaded (Loader.view p') = Loader.loaded (Loader.view p)
       end.
Proof.
  destruct p as [[[db0 fh0] js acc fs idb saving status al dl] [err ld sh lo]].
  run_loader. cbn.
  destruct js; cbn; [|eexists; (split; [reflexivity|]); cbn; repeat split].
  destruct idb as [slot|]; cbn;
    eexists; (split; [reflexivity|]); cbn; repeat split.
Qed.

(** ** Round trips through the file *)

(** X23.  Create at a location, reload the page, load the saved file.  In a
    browser with sql.js and IndexedDB, with the chosen file writable and the
    permission granted on return, and an engine that re-opens its export of
    the empty database: after the reload the mount effect finds the handle
    remembered, and "Load saved" ends loaded on the empty database, bound to
    that handle. *)
Theorem create_reload_load_round_trip {engine : SqlJs}
    (message_of : exn -> string) (handle : FileSystemFileHandle.t)
    (p : Loader.Page) (slot : option FileSystemFileHandle.t)
    (query request : Loader.PermissionState) :
  window_initSqlJs (Loader.world p) = true ->
  indexedDB (Loader.world p) = Some slot ->
  access (Loader.world p) (FileSystemFileHandle.entry handle) = write_granted ->
  sqlite_open (sqlite_export initSchema) = initSchema ->
  Loader.is_granted query || Loader.is_granted request = true ->
  exists p1 p2 p3,
    Loader.handleCreateAtLocation message_of (Loader.chosen handle) p = (Return tt, p1)
    /\ Loader.mount (reload (Loader.world p1)) = (Return tt, p2)
    /\ Loader.savedHandle (Loader.view p2) = Some handle
    /\ Loader.handleLoadSaved message_of query request p2 = (Return tt, p3)
    /\ dbService (Loader.world p3) = mkDatabaseService (Some initSchema) (Some handle)
    /\ Loader.loaded (Loader.view p3) = true
    /\ Loader.error (Loader.view p3) = None.
Proof.
  destruct p as [[[db0 fh0] js acc fs idb saving status al dl] [err ld sh lo]].
  cbn. intros -> -> Ha Hopen Hperm.
  assert (Hneg : negb (Loader.is_granted query) && negb (Loader.is_granted request)
                 = false).
  { destruct (Loader.is_granted query), (Loader.is_granted request);
      simpl in *; congruence. }
  do 3 eexists. split.
  { run_loader. cbn. rewrite Ha. cbn. reflexivity. }
  split; [reflexivity|]. split; [reflexivity|]. split.
  { unfold Loader.handleLoadSaved. cbn. unfold bind at 1. cbn. rewrite Hneg.
    run_loader. cbn. rewrite Ha, Nat.eqb_refl. cbn. rewrite Hopen. cbn.
    reflexivity. }
  cbn. repeat split.
Qed.

Lemma create_reload_load_round_trip_witness :
  exists p1 p2 p3,
    Loader.handleCreateAtLocation (engine := Image.sqljs) Scenario.message_of
      (Loader.chosen Sample.handle) Scenario.first_visit = (Return tt, p1)
    /\ Loader.mount (reload (Loader.world p1)) = (Return tt, p2)
    /\ Loader.savedHandle (Loader.view p2) = Some Sample.handle
    /\ Loader.handleLoadSaved (engine := Image.sqljs) Scenario.message_of
         Loader.prompt Loader.granted p2 = (Return tt, p3)
    /\ dbService (Loader.world p3)
       = mkDatabaseService (Some initSchema) (Some Sample.handle)
    /\ Loader.loaded (Loader.view p3) = true
    /\ Loader.error (Loader.view p3) = None.
Proof.
  apply (create_reload_load_round_trip (engine := Image.sqljs) Scenario.message_of
           Sample.handle Scenario.first_visit None Loader.prompt Loader.granted);
    reflexivity.
Defined.

(** X24.  Save, reload the page, open the file.  From a session with a
    database, bound to a file that can be written, in a browser with sql.js
    and IndexedDB, and an engine that re-opens its export of that database:
    after [handleSaveDb], a reload and "Open location" on the same file, the
    service holds a database with the same projects, bots and prompts and is
    bound to the file again. *)
Theorem save_reload_open_round_trip {engine : SqlJs}
    (message_of : exn -> string) (w : World) (d : Database)
    (h : FileSystemFileHandle.t) (slot : option FileSystemFileHandle.t) :
  db (dbService w) = Some d ->
  fileHandle (dbService w) = Some h ->
  access w (FileSystemFileHandle.entry h) = write_granted ->
  window_initSqlJs w = true ->
  indexedDB w = Some slot ->
  sqlite_open (sqlite_export d) = d ->
  exists w1 p2 d',
    handleSaveDb w = (Return tt, w1)
    /\ Loader.handleOpenLocation message_of (Loader.chosen h) (reload w1)
       = (Return tt, p2)
    /\ dbService (Loader.world p2) = mkDatabaseService (Some d') (Some h)
    /\ projects d' = projects d /\ bots d' = bots d /\ prompts d' = prompts d
    /\ Loader.loaded (Loader.view p2) = true.
Proof.
  destruct w as [[db0 fh0] js acc fs idb saving status al dl]. cbn.
  intros -> -> Ha -> -> Hopen.
  exists (mkWorld (mkDatabaseService (Some d) (Some h)) true acc
            ((FileSystemFileHandle.entry h, sqlite_export d) :: fs) (Some slot)
            false "Saved to disk!" al dl).
  eexists. exists d. split.
  { unfold handleSaveDb, saveToDisk, bind, try_finally, try_catch, setIsSaving,
      setSaveStatus, createWritable, write_and_close, ret. cbn. rewrite Ha. cbn.
    reflexivity. }
  split.
  { run_loader. cbn. rewrite Ha, Nat.eqb_refl. cbn. rewrite Hopen. cbn.
    reflexivity. }
  cbn. repeat split.
Qed.

Lemma save_reload_open_round_trip_witness :
  exists w1 p2 d',
    handleSaveDb (engine := Image.sqljs) Scenario.bound = (Return tt, w1)
    /\ Loader.handleOpenLocation (engine := Image.sqljs) Scenario.message_of
         (Loader.chosen Sample.handle) (reload w1) = (Return tt, p2)
    /\ dbService (Loader.world p2) = mkDatabaseService (Some d') (Some Sample.handle)
    /\ projects d' = projects Sample.populated
    /\ bots d' = bots Sample.populated
    /\ prompts d' = prompts Sample.populated
    /\ Loader.loaded (Loader.view p2) = true.
Proof.
  apply (save_reload_open_round_trip (engine := Image.sqljs) Scenario.message_of
           Scenario.bound Sample.populated Sample.handle None); reflexivity.
Defined.

(** ** Most recently touched first *)

Lemma front_of_listing {R} (key : R -> string) (mine : R -> bool)
    (now : string) (l : list R) (x : R) :
  recents_first key l ->
  In x l -> key x = now -> mine x = true ->
  (forall y, In y l -> mine y = false -> Sql.text_lt (key y) now = true) ->
  exists first, hd_error l = Some first /\ mine first = true.
Proof.
  unfold recents_first. intros Hs Hx Hk Hm Hothers.
  destruct l as [|y l]; [contradiction|].
  exists y. split; [reflexivity|].
  destruct (mine y) eqn:Ey; [reflexivity|]. exfalso.
  pose proof (Hothers y (or_introl eq_refl) Ey) as Hlt.
  destruct Hx as [->|Hx]; [congruence|].
  apply StronglySorted_inv in Hs. destruct Hs as [_ Hall].
  rewrite Forall_forall in Hall. specialize (Hall x Hx). simpl in Hall.
  rewrite Hk in Hall. apply text_le_not_lt in Hall. congruence.
Qed.

(** X25.  Recents first, after an update.  When some prompt has id [p] and
    the clock's reading is later than the [updated_at] of every prompt with
    another id, [updatePrompt p f] with an updatable field puts a prompt with
    id [p], stamped with that reading, at the head of its bot's listing. *)
Theorem updated_prompt_is_listed_first
    (d : Database) (h : option FileSystemFileHandle.t)
    (p : Z) (f : PartialPrompt.t) (now : string) (r : Prompt.t) :
  In r (prompts d) -> Prompt.id r = p ->
  has_updatable_field f = true ->
  (forall y, In y (prompts d) -> Prompt.id y <> p ->
             Sql.text_lt (Prompt.updated_at y) now = true) ->
  exists s' first rest,
    updatePrompt p f now (session d h) = (Return tt, s')
    /\ getPrompts (Prompt.bot_id r) s' = (Return (first :: rest), s')
    /\ Prompt.id first = p /\ Prompt.updated_at first = now.
Proof.
  intros Hin Hid Hf Hothers.
  rewrite updatePrompt_eq, Hf.
  set (d' := mkDatabase _ _ _ _ _ _).
  destruct (front_of_listing Prompt.updated_at (fun y => Prompt.id y =? p) now
              (Sql.select_prompts (Prompt.bot_id r) d') (patched f now r))
    as (first & Hhd & Hmine).
  - apply order_by_desc_sorted.
  - apply order_by_desc_In. apply filter_In. split; [|apply Z.eqb_refl].
    subst d'. simpl. apply in_map_iff. exists r. split; [|exact Hin].
    rewrite Hid, Z.eqb_refl. reflexivity.
  - reflexivity.
  - simpl. rewrite Hid. apply Z.eqb_refl.
  - intros y Hy Hny. apply order_by_desc_In in Hy. apply filter_In in Hy.
    destruct Hy as [Hy _]. subst d'. simpl in Hy. apply in_map_iff in Hy.
    destruct Hy as (y0 & Ey & Hy0).
    destruct (Prompt.id y0 =? p) eqn:E0.
    + subst y. simpl in Hny. apply Z.eqb_eq in E0. rewrite E0, Z.eqb_refl in Hny.
      discriminate.
    + subst y. apply Hothers; [exact Hy0 | now apply Z.eqb_neq].
  - destruct (Sql.select_prompts (Prompt.bot_id r) d') as [|x rest] eqn:El;
      [discriminate|].
    injection Hhd as ->. exists (session d' h), first, rest.
    split; [reflexivity|]. rewrite getPrompts_eq, El.
    split; [reflexivity|]. apply Z.eqb_eq in Hmine. split; [exact Hmine|].
    assert (Hfirst : In first (Sql.select_prompts (Prompt.bot_id r) d'))
      by (rewrite El; now left).
    apply order_by_desc_In in Hfirst. apply filter_In in Hfirst.
    destruct Hfirst as [Hfirst _]. subst d'. simpl in Hfirst.
    apply in_map_iff in Hfirst. destruct Hfirst as (y0 & Ey & _).
    destruct (Prompt.id y0 =? p) eqn:E0; subst first; [reflexivity|].
    apply Z.eqb_neq in E0. contradiction.
Qed.

Lemma updated_prompt_is_listed_first_witness :
  exists s' first rest,
    updatePrompt 1
      (PartialPrompt.mk None None (Some "alpha2") None None None None None None)
      Sample.t2 (session Sample.prompts_db None) = (Return tt, s')
    /\ getPrompts 1 s' = (Return (first :: rest), s')
    /\ Prompt.id first = 1 /\ Prompt.updated_at first = Sample.t2.
Proof.
  apply (updated_prompt_is_listed_first Sample.prompts_db None 1
           (PartialPrompt.mk None None (Some "alpha2") None None None None None None)
           Sample.t2 (Prompt.mk 1 1 "alpha" "sys" "usr" "dev" "{}" Sample.t0 Sample.t0)).
  - simpl. now left.
  - reflexivity.
  - reflexivity.
  - intros y [<-|[<-|[]]] Hne; simpl in *; [congruence | reflexivity].
Defined.

(** X26.  Recents first, after a create.  When the clock's reading is later
    than the [updated_at] of every prompt there is, the prompt [createPrompt]
    inserts is the head of its bot's listing. *)
Theorem created_prompt_is_listed_first
    (d : Database) (h : option FileSystemFileHandle.t)
    (botId : Z) (name now : string) :
  (forall y, In y (prompts d) -> Sql.text_lt (Prompt.updated_at y) now = true) ->
  exists s' rowid rest,
    createPrompt botId name now (session d h) = (Return rowid, s')
    /\ getPrompts botId s'
       = (Return (Prompt.mk rowid botId name "" "" "" defaultParams now now :: rest), s').
Proof.
  intros Hothers. rewrite createPrompt_eq.
  set (rowid := Sql.next_rowid _ _). set (d' := mkDatabase _ _ _ _ _ _).
  set (row := Prompt.mk rowid botId name "" "" "" defaultParams now now).
  assert (Hlisted : forall y, In y (Sql.select_prompts botId d') ->
                              y = row \/ In y (prompts d)).
  { intros y Hy. apply order_by_desc_In in Hy. apply filter_In in Hy.
    destruct Hy as [Hy _]. subst d'. simpl in Hy. apply in_app_or in Hy.
    destruct Hy as [Hy|[<-|[]]]; [now right | now left]. }
  destruct (front_of_listing Prompt.updated_at (fun y => Prompt.id y =? rowid) now
              (Sql.select_prompts botId d') row)
    as (first & Hhd & Hmine).
  - apply order_by_desc_sorted.
  - apply order_by_desc_In. apply filter_In. split; [|apply Z.eqb_refl].
    subst d'. simpl. apply in_or_app. right. now left.
  - reflexivity.
  - simpl. apply Z.eqb_refl.
  - intros y Hy Hny. destruct (Hlisted y Hy) as [->|Hold]; [|now apply Hothers].
    simpl in Hny. rewrite Z.eqb_refl in Hny. discriminate.
  - destruct (Sql.select_prompts botId d') as [|x rest] eqn:El; [discriminate|].
    injection Hhd as ->. exists (session d' h), rowid, rest.
    split; [reflexivity|]. rewrite getPrompts_eq, El.
    assert (Hfirst : first = row \/ In first (prompts d))
      by (apply Hlisted; now left).
    destruct Hfirst as [->|Hold]; [reflexivity|]. exfalso.
    apply Z.eqb_eq in Hmine.
    apply (next_rowid_not_in (map Prompt.id (prompts d)) (seq_prompts d)).
    fold rowid. rewrite <- Hmine. now apply in_map.
Qed.

Lemma created_prompt_is_listed_first_witness :
  exists s' rowid rest,
    createPrompt 1 "gamma" Sample.t2 (session Sample.prompts_db None)
    = (Return rowid, s')
    /\ getPrompts 1 s'
       = (Return (Prompt.mk rowid 1 "gamma" "" "" "" defaultParams Sample.t2 Sample.t2
                    :: rest), s').
Proof.
  apply (created_prompt_is_listed_first Sample.prompts_db None 1 "gamma" Sample.t2).
  intros y [<-|[<-|[]]]; reflexivity.
Defined.
